(** * Snapshot comparison engine of ecfr-mcp (build/index.js)

    A shallow embedding of the flattener ([collectSections],
    [buildSectionMap]), the differ ([diffTitleStructures]), the date helper
    [rangesOverlap] and the end-date clamp of the two composite tool
    handlers, with the properties stated for them. *)

From Stdlib Require Import Floats ZArith String List Bool Lia.
From Stdlib Require Import Ascii DecimalString.
Import ListNotations.

#[local] Set Warnings "-register-all".

Local Open Scope string_scope.

(** ** JSON values

    The structure documents are the result of [res.json()], i.e. of
    [JSON.parse]: null, booleans, IEEE doubles (never NaN, which JSON cannot
    denote), strings, arrays and plain objects.  An object is the list of its
    own properties; a property read takes the first binding of the key. *)
Inductive json : Type :=
| JNull
| JBool (b : bool)
| JNum (n : float)
| JStr (s : string)
| JArr (items : list json)
| JObj (props : list (string * json)).

(** Induction over JSON values, with the hypothesis on every element of an
    array and every property value of an object. *)
Section JsonInd.
Variable P : json -> Prop.
Hypothesis HNull : P JNull.
Hypothesis HBool : forall b, P (JBool b).
Hypothesis HNum : forall n, P (JNum n).
Hypothesis HStr : forall s, P (JStr s).
Hypothesis HArr : forall items, Forall P items -> P (JArr items).
Hypothesis HObj : forall props, Forall (fun kv => P (snd kv)) props -> P (JObj props).

Fixpoint json_ind' (v : json) : P v :=
  match v with
  | JNull => HNull
  | JBool b => HBool b
  | JNum n => HNum n
  | JStr s => HStr s
  | JArr items =>
      HArr items
        ((fix go (l : list json) : Forall P l :=
            match l with
            | [] => Forall_nil _
            | x :: rest => Forall_cons _ (json_ind' x) (go rest)
            end) items)
  | JObj props =>
      HObj props
        ((fix go (l : list (string * json)) : Forall (fun kv => P (snd kv)) l :=
            match l with
            | [] => Forall_nil _
            | (k, x) :: rest => Forall_cons (P := fun kv => P (snd kv)) (k, x) (json_ind' x) (go rest)
            end) props)
  end.
End JsonInd.

(** [v.key] on a non-null value; [None] is [undefined].  Arrays and
    primitives have none of the keys the engine reads. *)
Fixpoint prop_lookup (key : string) (ps : list (string * json)) : option json :=
  match ps with
  | [] => None
  | (k, v) :: rest => if String.eqb k key then Some v else prop_lookup key rest
  end.

Definition get (v : json) (key : string) : option json :=
  match v with
  | JObj ps => prop_lookup key ps
  | _ => None
  end.

(** Optional chaining [v?.key] on a possibly undefined value. *)
Definition oget (v : option json) (key : string) : option json :=
  match v with
  | Some v => get v key
  | None => None
  end.

(** Nullish coalescing [a ?? b]: [undefined] and [null] give [b]. *)
Definition nullish (a : option json) : bool :=
  match a with
  | None | Some JNull => true
  | _ => false
  end.

Definition coalesce (a b : option json) : option json :=
  if nullish a then b else a.

(** JavaScript truthiness of a value ([undefined] is [None]). *)
Definition truthy (v : option json) : bool :=
  match v with
  | None | Some JNull => false
  | Some (JBool b) => b
  | Some (JNum n) => negb (PrimFloat.eqb n 0%float) && PrimFloat.eqb n n
  | Some (JStr s) => negb (String.eqb s "")
  | Some (JArr _) | Some (JObj _) => true
  end.

(** [node && typeof node === "object"]: arrays are objects too. *)
Definition is_object (v : json) : bool :=
  match v with
  | JObj _ | JArr _ => true
  | _ => false
  end.

Definition has_prop (key : string) (ps : list (string * json)) : bool :=
  match prop_lookup key ps with
  | Some _ => true
  | None => false
  end.

Section Model.

(** [Number.prototype.toString] on doubles; no property below depends on
    how numbers are printed, so it is left as a parameter. *)
Variable number_to_string : float -> string.

(** [String(v)] on a JSON value; [None] is a thrown [TypeError].  An array
    is joined with commas ([null] elements print as the empty string).  A
    plain object prints as ["[object Object]"] through
    [Object.prototype.toString], unless it has an own [toString] property:
    that property is never callable (JSON has no functions), the inherited
    [valueOf] returns the object itself, and [OrdinaryToPrimitive] throws. *)
Fixpoint js_to_string (v : json) : option string :=
  match v with
  | JNull => Some "null"
  | JBool true => Some "true"
  | JBool false => Some "false"
  | JNum n => Some (number_to_string n)
  | JStr s => Some s
  | JArr items =>
      (fix join_items (l : list json) : option string :=
         match l with
         | [] => Some ""
         | x :: rest =>
             let elem := match x with
                         | JNull => Some ""
                         | _ => js_to_string x
                         end in
             match rest with
             | [] => elem
             | _ =>
                 match elem, join_items rest with
                 | Some a, Some b => Some (a ++ "," ++ b)
                 | _, _ => None
                 end
             end
         end) items
  | JObj ps => if has_prop "toString" ps then None else Some "[object Object]"
  end.

(** A JavaScript [Map] from strings to nodes: the list of its entries in
    insertion order.  [set] on a present key updates the value in place. *)
Definition jsmap := list (string * json).

Fixpoint map_has (m : jsmap) (k : string) : bool :=
  match m with
  | [] => false
  | (k', _) :: rest => String.eqb k' k || map_has rest k
  end.

Fixpoint map_get (m : jsmap) (k : string) : option json :=
  match m with
  | [] => None
  | (k', v) :: rest => if String.eqb k' k then Some v else map_get rest k
  end.

Fixpoint map_set (m : jsmap) (k : string) (v : json) : jsmap :=
  match m with
  | [] => [(k, v)]
  | (k', v') :: rest =>
      if String.eqb k' k then (k', v) :: rest else (k', v') :: map_set rest k v
  end.

Definition map_keys (m : jsmap) : list string := map fst m.

(** [node.type === "section" && node.identifier] on an object node. *)
Definition is_section_node (ps : list (string * json)) : bool :=
  match prop_lookup "type" ps with
  | Some (JStr t) => String.eqb t "section"
  | _ => false
  end && truthy (prop_lookup "identifier" ps).

(** [collectSections(node, map)]: the map is threaded through; [None] is an
    exception (only [String(node.identifier)] can throw).  The [children]
    property is found by the inner [find_children] loop, which is
    [prop_lookup "children"] written so that the recursion is structural. *)
Fixpoint collectSections (node : json) (map : jsmap) : option jsmap :=
  match node with
  | JObj ps =>
      let after_self :=
        if is_section_node ps then
          match prop_lookup "identifier" ps with
          | Some id =>
              match js_to_string id with
              | Some key => Some (map_set map key node)
              | None => None
              end
          | None => Some map
          end
        else Some map in
      match after_self with
      | None => None
      | Some map1 =>
          (fix find_children (qs : list (string * json)) : option jsmap :=
             match qs with
             | [] => Some map1
             | (k, v) :: rest =>
                 if String.eqb k "children" then
                   match v with
                   | JArr children =>
                       (fix go (l : list json) (m : jsmap) : option jsmap :=
                          match l with
                          | [] => Some m
                          | child :: more =>
                              match collectSections child m with
                              | Some m' => go more m'
                              | None => None
                              end
                          end) children map1
                   | _ => Some map1
                   end
                 else find_children rest
             end) ps
      end
  | _ => Some map
  end.

(** [buildSectionMap(structure)]. *)
Definition buildSectionMap (structure : json) : option jsmap :=
  collectSections structure [].

(** The flattener as a fold over the values it visits (used by the
    proofs).  [visited v] lists the object values [collectSections] is
    called on, in depth-first pre-order: an object, then everything reached
    from the elements of its [children] array (first binding of the key).
    Arrays and primitives are not descended into. *)
Fixpoint visited (v : json) : list json :=
  match v with
  | JObj ps =>
      v :: (fix find_children (qs : list (string * json)) : list json :=
              match qs with
              | [] => []
              | (k, c) :: rest =>
                  if String.eqb k "children" then
                    match c with
                    | JArr children =>
                        (fix go (l : list json) : list json :=
                           match l with
                           | [] => []
                           | x :: more => app (visited x) (go more)
                           end) children
                    | _ => []
                    end
                  else find_children rest
              end) ps
  | _ => []
  end.

(** What one call of [collectSections] does to the map before descending. *)
Definition record_section (node : json) (map : jsmap) : option jsmap :=
  match node with
  | JObj ps =>
      if is_section_node ps then
        match prop_lookup "identifier" ps with
        | Some id =>
            match js_to_string id with
            | Some key => Some (map_set map key node)
            | None => None
            end
        | None => Some map
        end
      else Some map
  | _ => Some map
  end.

Fixpoint record_all (l : list json) (map : jsmap) : option jsmap :=
  match l with
  | [] => Some map
  | node :: rest =>
      match record_section node map with
      | Some map' => record_all rest map'
      | None => None
      end
  end.

(** A section entry: [Some key] for an object with [type === "section"]
    and a truthy identifier whose [String] conversion is [key]; [Some None]
    when that conversion throws; [None] for every other value. *)
Definition section_entry (node : json) : option (option string) :=
  match node with
  | JObj ps =>
      if is_section_node ps then
        match prop_lookup "identifier" ps with
        | Some id => Some (js_to_string id)
        | None => None
        end
      else None
  | _ => None
  end.

(** The last node of [l] that is a section entry with key [k]. *)
Fixpoint last_keyed (l : list json) (k : string) : option json :=
  match l with
  | [] => None
  | n :: rest =>
      match last_keyed rest k with
      | Some n' => Some n'
      | None =>
          match section_entry n with
          | Some (Some k') => if String.eqb k' k then Some n else None
          | _ => None
          end
      end
  end.

(** ** The differ *)

(** The [start_metadata] / [end_metadata] snapshot of a [modified] record:
    each field is [node.f ?? null]. *)
Record metadata := {
  md_received_on : json;
  md_reserved : json;
  md_size : json
}.

(** A ChangeRecord.  [heading] is a property of [added] and [removed]
    records only, [description] and the metadata of [modified] records only;
    [None] is an absent property. *)
Record change := {
  ctype : string;
  section : string;
  citation : string;
  cpart : json;
  change_date : string;
  heading : option json;
  description : option string;
  start_metadata : option metadata;
  end_metadata : option metadata
}.

Definition or_null (v : option json) : json :=
  match v with
  | Some v => v
  | None => JNull
  end.

(** [`${title} CFR ${id}`], [title] being the validated integer 1..50. *)
Definition citation_of (title : Z) (id : string) : string :=
  NilEmpty.string_of_int (Z.to_int title) ++ " CFR " ++ id.

(** The caller's [part] as a JSON value ([undefined] when not given). *)
Definition part_value (part : option string) : option json :=
  match part with
  | Some p => Some (JStr p)
  | None => None
  end.

(** [a !== b] between a field of an end-snapshot node and the same field of
    a start-snapshot node.  Both snapshots come from separate [JSON.parse]
    calls, so two arrays or two objects are never the same reference and
    always compare unequal; doubles compare by IEEE equality. *)
Definition strict_eq_across (a b : option json) : bool :=
  match a, b with
  | None, None => true
  | Some JNull, Some JNull => true
  | Some (JBool x), Some (JBool y) => Bool.eqb x y
  | Some (JNum x), Some (JNum y) => PrimFloat.eqb x y
  | Some (JStr x), Some (JStr y) => String.eqb x y
  | _, _ => false
  end.

(** The [differs] test of the third loop ([node] from [endMap], [previous]
    from [startMap]). *)
Definition differs (node previous : json) : bool :=
  negb (strict_eq_across (get node "label_description") (get previous "label_description"))
  || negb (strict_eq_across (get node "reserved") (get previous "reserved"))
  || negb (strict_eq_across (get node "received_on") (get previous "received_on"))
  || negb (strict_eq_across (get node "size") (get previous "size")).

Definition added_record (title : Z) (part : option string) (end_date : string)
    (id : string) (node : json) : change :=
  {| ctype := "added";
     section := id;
     citation := citation_of title id;
     cpart := or_null (coalesce (part_value part) (oget (get node "hierarchy") "part"));
     change_date := end_date;
     heading := Some (or_null (coalesce (get node "label_description") (get node "label")));
     description := None;
     start_metadata := None;
     end_metadata := None |}.

Definition removed_record (title : Z) (part : option string) (end_date : string)
    (id : string) (node : json) : change :=
  {| ctype := "removed";
     section := id;
     citation := citation_of title id;
     cpart := or_null (part_value part);
     change_date := end_date;
     heading := Some (or_null (coalesce (get node "label_description") (get node "label")));
     description := None;
     start_metadata := None;
     end_metadata := None |}.

Definition metadata_of (node : json) : metadata :=
  {| md_received_on := or_null (get node "received_on");
     md_reserved := or_null (get node "reserved");
     md_size := or_null (get node "size") |}.

Definition modified_record (title : Z) (part : option string) (end_date : string)
    (id : string) (node previous : json) : change :=
  {| ctype := "modified";
     section := id;
     citation := citation_of title id;
     cpart := or_null (part_value part);
     change_date := end_date;
     heading := None;
     description := Some "Section metadata changed between snapshots.";
     start_metadata := Some (metadata_of previous);
     end_metadata := Some (metadata_of node) |}.

(** The three loops of [diffTitleStructures], each pushing onto the shared
    [changes] array. *)
Definition push_added title part end_date (startMap endMap : jsmap)
    (changes : list change) : list change :=
  fold_left (fun changes '(id, node) =>
               if negb (map_has startMap id)
               then app changes [added_record title part end_date id node]
               else changes) endMap changes.

Definition push_removed title part end_date (startMap endMap : jsmap)
    (changes : list change) : list change :=
  fold_left (fun changes '(id, node) =>
               if negb (map_has endMap id)
               then app changes [removed_record title part end_date id node]
               else changes) startMap changes.

Definition push_modified title part end_date (startMap endMap : jsmap)
    (changes : list change) : list change :=
  fold_left (fun changes '(id, node) =>
               let previous := map_get startMap id in
               match previous with
               | Some prev =>
                   if truthy previous && differs node prev
                   then app changes [modified_record title part end_date id node prev]
                   else changes
               | None => changes
               end) endMap changes.

Definition diff_changes title part end_date (startMap endMap : jsmap) : list change :=
  push_modified title part end_date startMap endMap
    (push_removed title part end_date startMap endMap
       (push_added title part end_date startMap endMap [])).

(** The records each loop pushes, as lists (used by the proofs). *)
Definition added_list title part end_date (startMap endMap : jsmap) : list change :=
  flat_map (fun '(id, node) =>
              if negb (map_has startMap id)
              then [added_record title part end_date id node] else []) endMap.

Definition removed_list title part end_date (startMap endMap : jsmap) : list change :=
  flat_map (fun '(id, node) =>
              if negb (map_has endMap id)
              then [removed_record title part end_date id node] else []) startMap.

Definition modified_list title part end_date (startMap endMap : jsmap) : list change :=
  flat_map (fun '(id, node) =>
              match map_get startMap id with
              | Some prev =>
                  if truthy (Some prev) && differs node prev
                  then [modified_record title part end_date id node prev] else []
              | None => []
              end) endMap.

Record summary := {
  total_changes : nat;
  sections_added : nat;
  sections_removed : nat;
  sections_modified : nat
}.

Definition count_type (ty : string) (cs : list change) : nat :=
  length (filter (fun c => String.eqb (ctype c) ty) cs).

(** [change_types ? changes.filter((c) => change_types.includes(c.type))
    : changes]; an array, even empty, is truthy. *)
Definition filter_changes (change_types : option (list string))
    (changes : list change) : list change :=
  match change_types with
  | Some tys => filter (fun c => existsb (String.eqb (ctype c)) tys) changes
  | None => changes
  end.

Definition summarize (filteredChanges : list change) : summary :=
  {| total_changes := length filteredChanges;
     sections_added := count_type "added" filteredChanges;
     sections_removed := count_type "removed" filteredChanges;
     sections_modified := count_type "modified" filteredChanges |}.

(** [diffTitleStructures(title, start_date, end_date, part, change_types)].
    [fetchStructureJson] is the remote structure endpoint; [None] is a
    rejected fetch, which rejects the [Promise.all] and the whole call, as
    does an exception of the flattener. *)
Definition diffTitleStructures
    (fetchStructureJson : string -> Z -> option string -> option json)
    (title : Z) (start_date end_date : string) (part : option string)
    (change_types : option (list string)) : option (summary * list change) :=
  match fetchStructureJson start_date title part,
        fetchStructureJson end_date title part with
  | Some startStructure, Some endStructure =>
      match buildSectionMap startStructure with
      | None => None
      | Some startMap =>
          match buildSectionMap endStructure with
          | None => None
          | Some endMap =>
              let changes := diff_changes title part end_date startMap endMap in
              let filteredChanges := filter_changes change_types changes in
              Some (summarize filteredChanges, filteredChanges)
          end
      end
  | _, _ => None
  end.

End Model.

(** ** Date helpers *)

Local Open Scope Z_scope.

(** Days from 1970-01-01 to the proleptic Gregorian date [y-m-d] (the
    [MakeDay] of ECMA-262, written with floor division). *)
Definition days_from_civil (y m d : Z) : Z :=
  let y' := if m <=? 2 then y - 1 else y in
  let era := y' / 400 in
  let yoe := y' - era * 400 in
  let mp := if 2 <? m then m - 3 else m + 9 in
  let doy := (153 * mp + 2) / 5 + d - 1 in
  let doe := yoe * 365 + yoe / 4 - yoe / 100 + doy in
  era * 146097 + doe - 719468.

Definition is_leap (y : Z) : bool :=
  (Z.eqb (y mod 4) 0 && negb (Z.eqb (y mod 100) 0)) || Z.eqb (y mod 400) 0.

Definition days_in_month (y m : Z) : Z :=
  if Z.eqb m 2 then (if is_leap y then 29 else 28)
  else if existsb (Z.eqb m) [4; 6; 9; 11] then 30 else 31.

Definition digit (c : Ascii.ascii) : option Z :=
  let n := Z.of_N (Ascii.N_of_ascii c) - 48 in
  if (0 <=? n) && (n <=? 9) then Some n else None.

(** The ISO date-only form [YYYY-MM-DD] of the Date Time String Format, for
    a calendar date that exists: its time value at 00:00 UTC. *)
Definition parse_iso_date (s : string) : option Z :=
  match s with
  | String y1 (String y2 (String y3 (String y4 (String "-"%char
      (String m1 (String m2 (String "-"%char (String d1 (String d2 EmptyString))))))))) =>
      match digit y1, digit y2, digit y3, digit y4, digit m1, digit m2, digit d1, digit d2 with
      | Some a, Some b, Some c, Some e, Some f, Some g, Some h, Some i =>
          let y := a * 1000 + b * 100 + c * 10 + e in
          let m := f * 10 + g in
          let d := h * 10 + i in
          if (1 <=? m) && (m <=? 12) && (1 <=? d) && (d <=? days_in_month y m)
          then Some (days_from_civil y m d * 86400000)
          else None
      | _, _, _, _, _, _, _, _ => None
      end
  | _ => None
  end.

(** [TimeClip]: time values beyond 8.64e15 ms from the epoch are NaN. *)
Definition max_time : Z := 8640000000000000.

Definition time_clip (t : Z) : option Z :=
  if Z.abs t <=? max_time then Some t else None.

Section Dates.

(** The engine's [Date] parse of every other string (date-time forms of the
    Date Time String Format, and the implementation-specific formats); [None]
    is an invalid date. *)
Variable parse_other : string -> option Z.

Definition date_parse (s : string) : option Z :=
  match parse_iso_date s with
  | Some t => time_clip t
  | None => match parse_other s with
            | Some t => time_clip t
            | None => None
            end
  end.

(** [toDate(value)]: a falsy value (undefined or the empty string) and an
    invalid date give [undefined]; a date is its time value. *)
Definition toDate (value : option string) : option Z :=
  match value with
  | None | Some EmptyString => None
  | Some s => date_parse s
  end.

(** [rangesOverlap(filterStart, filterEnd, itemStart, itemEnd)]; the two
    sentinels are [new Date(-8640000000000000)] and
    [new Date(8640000000000000)], and [<] / [>] on dates compare their time
    values. *)
Definition rangesOverlap (filterStart filterEnd itemStart itemEnd : option string) : bool :=
  let fs := toDate filterStart in
  let fe := toDate filterEnd in
  let is := toDate itemStart in
  let ie := toDate itemEnd in
  let effectiveItemStart := match is with Some t => t | None => - max_time end in
  let effectiveItemEnd := match ie with Some t => t | None => max_time end in
  match fs with
  | Some f => if effectiveItemEnd <? f then false else
      match fe with
      | Some e => if e <? effectiveItemStart then false else true
      | None => true
      end
  | None =>
      match fe with
      | Some e => if e <? effectiveItemStart then false else true
      | None => true
      end
  end.

(** [isWithinRange(target, start, end)]: the target must be a date; a
    bound that is a date excludes the targets on its wrong side. *)
Definition isWithinRange (target start end_ : option string) : bool :=
  let t := toDate target in
  let s := toDate start in
  let e := toDate end_ in
  match t with
  | None => false
  | Some t =>
      if match s with Some s => t <? s | None => false end then false
      else if match e with Some e => e <? t | None => false end then false
      else true
  end.

End Dates.

Local Close Scope Z_scope.

(** ** The end-date clamp of the composite handlers *)

(** [a > b] on strings: [b] sorts before [a] code unit by code unit, a
    proper prefix sorting first.  The strings compared are ASCII dates. *)
Fixpoint js_string_lt (a b : string) : bool :=
  match a, b with
  | _, EmptyString => false
  | EmptyString, String _ _ => true
  | String c a', String d b' =>
      if Ascii.eqb c d then js_string_lt a' b'
      else (Ascii.N_of_ascii c <? Ascii.N_of_ascii d)%N
  end.

Definition js_string_gt (a b : string) : bool := js_string_lt b a.

(** [latestIssue && requested > latestIssue ? latestIssue : requested];
    [latestIssue] is [meta?.latest_issue_date], the title's
    [latest_issue_date] string in titles.json, [None] when the title has no
    entry or the field is absent or null. *)
Definition clamp_end (latestIssue : option string) (requested : string) : string :=
  match latestIssue with
  | Some l => if truthy (Some (JStr l)) && js_string_gt requested l then l else requested
  | None => requested
  end.

(** The end date [ecfr_compare_title_dates] passes to the differ. *)
Definition compare_effective_end (latestIssue : option string) (end_date : string) : string :=
  clamp_end latestIssue end_date.

(** The end date [ecfr_get_recent_changes] passes to the differ:
    [requestedEnd = end_date ?? today], then the clamp. *)
Definition recent_effective_end (latestIssue : option string)
    (end_date : option string) (today : string) : string :=
  let requestedEnd := match end_date with Some e => e | None => today end in
  clamp_end latestIssue requestedEnd.

(** How many records of type [ty] the list has for section [id]. *)
Definition count_records (ty id : string) (cs : list change) : nat :=
  length (filter (fun c => String.eqb (ctype c) ty && String.eqb (section c) id) cs).

(** A compared field that equals itself across two parses: absent, or a
    JSON scalar (a double other than NaN, which JSON cannot produce). *)
Definition scalar_field (v : option json) : bool :=
  match v with
  | None | Some JNull | Some (JBool _) | Some (JStr _) => true
  | Some (JNum x) => PrimFloat.eqb x x
  | Some (JArr _) | Some (JObj _) => false
  end.

(** ** Key order of the flattened map (used by the proofs) *)



(** ** Arguments and filters of the tool handlers *)

(** [Array.prototype.filter] with a callback that may throw ([None]). *)
Fixpoint filter_throwing {A : Type} (p : A -> option bool) (l : list A) : option (list A) :=
  match l with
  | [] => Some []
  | x :: rest =>
      match p x with
      | None => None
      | Some b =>
          match filter_throwing p rest with
          | None => None
          | Some rest' => Some (if b then x :: rest' else rest')
          end
      end
  end.

(** [Array.prototype.find] with a callback that may throw ([None]): the
    first element the callback accepts, if any. *)
Fixpoint find_throwing {A : Type} (p : A -> option bool) (l : list A) : option (option A) :=
  match l with
  | [] => Some None
  | x :: rest =>
      match p x with
      | None => None
      | Some true => Some (Some x)
      | Some false => find_throwing p rest
      end
  end.

(** A truthy optional string argument (given and not empty). *)
Definition arg_truthy (a : option string) : bool :=
  match a with
  | Some s => negb (String.eqb s "")
  | None => false
  end.

(** [String(n)] of a validated integer argument. *)
Definition int_string (n : Z) : string := NilEmpty.string_of_int (Z.to_int n).

(** [v === s] for a string [s]. *)
Definition strict_eq_str (v : option json) (s : string) : bool :=
  match v with
  | Some (JStr x) => String.eqb x s
  | _ => false
  end.

Section Handlers.

Variable number_to_string : float -> string.

(** [String(v)] on a possibly undefined value. *)
Definition js_String_opt (v : option json) : option string :=
  match v with
  | None => Some "undefined"
  | Some j => js_to_string number_to_string j
  end.

(** *** [ecfr_get_corrections] *)

(** The callback of [corrections.filter]; [title] is the validated integer
    argument, [date] and [error_corrected_date] the string arguments;
    [None] is an exception of [String(c?.title)]. *)
Definition correction_kept (title : option Z) (date error_corrected_date : option string)
    (c : json) : option bool :=
  let title_rejects :=
    match title with
    | Some t =>
        if negb (Z.eqb t 0) then
          match js_String_opt (get c "title") with
          | Some s => Some (negb (String.eqb s (int_string t)))
          | None => None
          end
        else Some false
    | None => Some false
    end in
  match title_rejects with
  | None => None
  | Some true => Some false
  | Some false =>
      let corrDate := get c "error_corrected" in
      let occDate := get c "error_occurred" in
      if match error_corrected_date with
         | Some d => negb (String.eqb d "") && negb (strict_eq_str corrDate d)
         | None => false
         end
      then Some false
      else if match date with
              | Some d => negb (String.eqb d "") && negb (strict_eq_str corrDate d)
                          && negb (strict_eq_str occDate d)
              | None => false
              end
      then Some false
      else Some true
  end.

(** [Array.isArray(data?.ecfr_corrections) ? data.ecfr_corrections : []]. *)
Definition corrections_of (data : json) : list json :=
  match get data "ecfr_corrections" with
  | Some (JArr l) => l
  | _ => []
  end.

(** The [meta] and [corrections] of the answer. *)
Record corrections_result := {
  total : nat;
  filtered_count : nat;
  kept : list json
}.

(** The handler on the fetched payload [data]; [None] is the error answer
    of a throwing filter. *)
Definition get_corrections (title : option Z) (date error_corrected_date : option string)
    (data : json) : option corrections_result :=
  let corrections := corrections_of data in
  match filter_throwing (correction_kept title date error_corrected_date) corrections with
  | Some filtered =>
      Some {| total := length corrections; filtered_count := length filtered;
              kept := filtered |}
  | None => None
  end.

(** *** [ecfr_get_section_content]: resolving the [structure_index] *)

(** The callback of [candidates.filter]: the three [matches*] constants are
    all evaluated, in order; [None] is an exception of [String]. *)
Definition entry_matches (title : Z) (sec : string) (part : option string)
    (entry : json) : option bool :=
  let h := get entry "hierarchy" in
  let hs := oget h "section" in
  let matchesSection :=
    if truthy hs then option_map (fun s => String.eqb s sec) (js_String_opt hs)
    else Some false in
  let matchesPart :=
    match part with
    | Some p =>
        if negb (String.eqb p "") then
          let hp := oget h "part" in
          if truthy hp then option_map (fun s => String.eqb s p) (js_String_opt hp)
          else Some false
        else Some true
    | None => Some true
    end in
  let ht := oget h "title" in
  let matchesTitle :=
    if truthy ht then option_map (fun s => String.eqb s (int_string title)) (js_String_opt ht)
    else Some false in
  match matchesSection, matchesPart, matchesTitle with
  | Some a, Some b, Some c => Some (a && b && c)
  | _, _, _ => None
  end.

(** [[`${title} CFR ${section}`, `${section}`, part ? `${part} ${section}`
    : null].filter(Boolean)]. *)
Definition section_queries (title : Z) (sec : string) (part : option string) : list string :=
  flat_map (fun q => match q with
                     | Some s => if negb (String.eqb s "") then [s] else []
                     | None => []
                     end)
    [Some (int_string title ++ " CFR " ++ sec); Some sec;
     match part with
     | Some p => if negb (String.eqb p "") then Some (p ++ " " ++ sec) else None
     | None => None
     end].

(** [searchData?.results] when it is an array. *)
Definition search_candidates (searchData : json) : list json :=
  match get searchData "results" with
  | Some (JArr l) => l
  | _ => []
  end.

(** The [for (const q of queries)] loop; [search q] is the search endpoint
    queried with [q] ([None]: the fetch throws).  It returns the final
    [matchedResult] and [targetIndex]; [None] for [targetIndex] stands for
    the falsy value it starts with. *)
Fixpoint resolve_queries (search : string -> option json) (title : Z) (sec : string)
    (part : option string) (queries : list string) (matched target : option json)
    : option (option json * option json) :=
  match queries with
  | [] => Some (matched, target)
  | q :: rest =>
      match search q with
      | None => None
      | Some searchData =>
          match filter_throwing (entry_matches title sec part) (search_candidates searchData) with
          | None => None
          | Some [] => resolve_queries search title sec part rest matched target
          | Some (first :: _) =>
              let t := get first "structure_index" in
              if truthy t then Some (Some first, t)
              else resolve_queries search title sec part rest (Some first) t
          end
      end
  end.

Inductive target :=
| ArgIndex (z : Z)
| FoundIndex (v : json).

(** The outcome of the lookup: the index to fetch (with [matchedResult]),
    an error answer, or an exception (caught into an error answer). *)
Inductive resolution :=
| Resolved (t : target) (matchedResult : option json)
| ResolveError (msg : string)
| ResolveThrows.

Definition resolve_structure_index (search : string -> option json) (title : Z)
    (sec part : option string) (structure_index : option Z) : resolution :=
  let lookup :=
    match sec with
    | Some s =>
        if negb (String.eqb s "") then
          match resolve_queries search title s part (section_queries title s part) None None with
          | None => ResolveThrows
          | Some (matched, Some v) =>
              if truthy (Some v) then Resolved (FoundIndex v) matched
              else ResolveError "Unable to resolve structure_index for requested section."
          | Some (_, None) =>
              ResolveError "Unable to resolve structure_index for requested section."
          end
        else ResolveError "Provide either structure_index or a section number to locate content."
    | None => ResolveError "Provide either structure_index or a section number to locate content."
    end in
  match structure_index with
  | Some z => if negb (Z.eqb z 0) then Resolved (ArgIndex z) None else lookup
  | None => lookup
  end.

End Handlers.

(** *** [ecfr_search_with_date_range] *)

Section DateRangeSearch.

Variable number_to_string : float -> string.

(** The engine's [Date] parse of the strings that are not date-only ISO
    dates, as in [toDate]. *)
Variable parse_other : string -> option Z.

(** [new Date(n)] on a number: the time value [TimeClip(n)], [None] for an
    invalid date. *)
Variable time_of_number : float -> option Z.

(** [toDate(value)] on a JSON value read from a search result; the outer
    [None] is an exception.  [new Date(v)] parses a string; a number is a
    time value; [true] is [ToNumber(true)], the time value 1; an object or an
    array is first converted by [ToPrimitive], which for a JSON value is its
    [String] conversion (and throws where that throws), and the string is
    parsed. *)
Definition toDate_value (value : option json) : option (option Z) :=
  if negb (truthy value) then Some None else
  match value with
  | Some (JStr s) => Some (date_parse parse_other s)
  | Some (JNum n) => Some (time_of_number n)
  | Some (JBool _) => Some (time_clip 1)
  | Some ((JArr _ | JObj _) as v) =>
      match js_to_string number_to_string v with
      | Some s => Some (date_parse parse_other s)
      | None => None
      end
  | Some JNull | None => Some None
  end.

(** [rangesOverlap(start_date, end_date, starts, ends)] at its call site:
    the filter bounds are the string arguments, the item bounds are values of
    the search result; [None] is an exception of [toDate]. *)
Definition rangesOverlap_values (filterStart filterEnd : option string)
    (itemStart itemEnd : option json) : option bool :=
  let fs := toDate parse_other filterStart in
  let fe := toDate parse_other filterEnd in
  match toDate_value itemStart with
  | None => None
  | Some is =>
      match toDate_value itemEnd with
      | None => None
      | Some ie =>
          let effectiveItemStart := match is with Some t => t | None => (- max_time)%Z end in
          let effectiveItemEnd := match ie with Some t => t | None => max_time end in
          Some (match fs with
                | Some f => if (effectiveItemEnd <? f)%Z then false else
                    match fe with
                    | Some e => if (e <? effectiveItemStart)%Z then false else true
                    | None => true
                    end
                | None =>
                    match fe with
                    | Some e => if (e <? effectiveItemStart)%Z then false else true
                    | None => true
                    end
                end)
      end
  end.

(** The callback of [data.results.filter]; [title] is the validated integer
    argument, [start_date] and [end_date] the string arguments; [None] is an
    exception. *)
Definition search_entry_kept (title : option Z) (start_date end_date : option string)
    (entry : json) : option bool :=
  let matchesTitle :=
    match title with
    | None => Some true
    | Some t =>
        let v := oget (get entry "hierarchy") "title" in
        if truthy v
        then option_map (fun s => String.eqb s (int_string t))
               (js_String_opt number_to_string v)
        else Some false
    end in
  let starts := get entry "starts_on" in
  let ends := get entry "ends_on" in
  let matchesDate :=
    if negb (arg_truthy start_date) && negb (arg_truthy end_date) then Some true
    else rangesOverlap_values start_date end_date starts ends in
  match matchesTitle, matchesDate with
  | Some a, Some b => Some (a && b)
  | _, _ => None
  end.

(** [Array.isArray(data?.results) ? data.results : []]. *)
Definition search_results_of (data : json) : list json :=
  match get data "results" with
  | Some (JArr l) => l
  | _ => []
  end.

(** The [data] of the answer. *)
Record date_range_result := {
  range_meta : option json;
  range_filtered_count : nat;
  range_results : list json
}.

(** The handler on the fetched payload [data]; [None] is the error answer
    of a throwing filter. *)
Definition search_with_date_range (title : option Z) (start_date end_date : option string)
    (data : json) : option date_range_result :=
  match filter_throwing (search_entry_kept title start_date end_date)
          (search_results_of data) with
  | Some filtered =>
      Some {| range_meta := coalesce (get data "meta") (Some (JObj []));
              range_filtered_count := length filtered;
              range_results := filtered |}
  | None => None
  end.

End DateRangeSearch.

(** *** [fetchTitleMeta] *)

Section TitleMeta.

Variable number_to_string : float -> string.

(** [fetchTitleMeta(title)] on the fetched [titles.json] payload [data]:
    [Array.isArray(data?.titles) && data.titles.find(...)], then [?? null];
    [None] is an exception of [String(t?.number)].  A found entry is never
    [undefined], and [null ?? null] is [null]. *)
Definition fetchTitleMeta (title : Z) (data : json) : option json :=
  match get data "titles" with
  | Some (JArr l) =>
      match find_throwing (fun t => option_map (fun s => String.eqb s (int_string title))
                                      (js_String_opt number_to_string (get t "number"))) l with
      | Some (Some t) => Some t
      | Some None => Some JNull
      | None => None
      end
  | _ => Some (JBool false)
  end.

End TitleMeta.

(** ** Example snapshots

    The concrete scenario of the specification: section 1306.04 becomes
    reserved and section 1306.05 appears between the two dates. *)
Definition section_node (id label : string) (extra : list (string * json)) : json :=
  JObj ([("type", JStr "section"); ("identifier", JStr id);
         ("label_description", JStr label)] ++ extra)%list.

Definition part_node (children : list json) : json :=
  JObj [("type", JStr "part"); ("identifier", JStr "1306");
        ("children", JArr children)].

Definition title_node (children : list json) : json :=
  JObj [("type", JStr "title"); ("identifier", JStr "21");
        ("children", JArr children)].

Definition scenario_start : json :=
  title_node [part_node [section_node "1306.04" "A"
                           [("reserved", JBool false);
                            ("hierarchy", JObj [("part", JStr "1306")])]]].

Definition scenario_end : json :=
  title_node [part_node [section_node "1306.04" "A"
                           [("reserved", JBool true);
                            ("hierarchy", JObj [("part", JStr "1306")])];
                         section_node "1306.05" "B"
                           [("hierarchy", JObj [("part", JStr "1306")])]]].

(** The structure endpoint serving [start] on 2024-01-01 and [end_] on
    2024-06-01. *)
Definition serve (start end_ : json) (date : string) (title : Z)
    (part : option string) : option json :=
  if String.eqb date "2024-01-01" then Some start
  else if String.eqb date "2024-06-01" then Some end_
  else None.

(** A corrections payload: a correction of title 21 corrected on
    2024-01-05, one of title 7 that occurred on 2024-01-05, and a [null]
    entry. *)
Definition sample_corrections : json :=
  JObj [("ecfr_corrections",
         JArr [JObj [("title", JStr "21"); ("error_corrected", JStr "2024-01-05");
                     ("error_occurred", JStr "2023-12-01")];
               JObj [("title", JStr "7"); ("error_corrected", JStr "2024-02-01");
                     ("error_occurred", JStr "2024-01-05")];
               JNull])].

(** A search endpoint answering every query with two title-21 results of
    part 1306: section 1306.99 (index 7), then section 1306.04 (index 42). *)
Definition sample_search (q : string) : option json :=
  Some (JObj [("results",
               JArr [JObj [("hierarchy", JObj [("title", JStr "21"); ("part", JStr "1306");
                                               ("section", JStr "1306.99")]);
                           ("structure_index", JNum 7%float)];
                     JObj [("hierarchy", JObj [("title", JStr "21"); ("part", JStr "1306");
                                               ("section", JStr "1306.04")]);
                           ("structure_index", JNum 42%float)]])]).

(** A payload of the date-range search: a current title-21 result, a
    title-21 result that ended in 2023, and a title-7 result without dates. *)
Definition sample_search_payload : json :=
  JObj [("meta", JObj [("total_count", JNum 3%float)]);
        ("results",
         JArr [JObj [("hierarchy", JObj [("title", JStr "21"); ("section", JStr "1306.04")]);
                     ("starts_on", JStr "2023-06-01")];
               JObj [("hierarchy", JObj [("title", JStr "21"); ("section", JStr "1306.05")]);
                     ("starts_on", JStr "2020-01-01"); ("ends_on", JStr "2023-01-01")];
               JObj [("hierarchy", JObj [("title", JStr "7"); ("section", JStr "1.1")])]])].

(** Number printing used when running the examples. *)
Definition print_number (n : float) : string := "0".

(** * Properties *)

Local Open Scope list_scope.

(** ** The change list *)

Lemma fold_left_push {A : Type} (step : list change -> A -> list change)
    (g : A -> list change) :
  (forall acc x, step acc x = acc ++ g x) ->
  forall l acc, fold_left step l acc = acc ++ flat_map g l.
Proof.
  intros Hstep l. induction l as [|x l IH]; intros acc; simpl.
  - now rewrite app_nil_r.
  - rewrite IH, Hstep. now rewrite app_assoc.
Qed.

Lemma diff_changes_split title part end_date sm em :
  diff_changes title part end_date sm em =
  added_list title part end_date sm em
  ++ removed_list title part end_date sm em
  ++ modified_list title part end_date sm em.
Proof.
  unfold diff_changes, push_modified, push_removed, push_added,
    added_list, removed_list, modified_list.
  rewrite (fold_left_push _ (fun '(id, node) =>
              match map_get sm id with
              | Some prev =>
                  if truthy (Some prev) && differs node prev
                  then [modified_record title part end_date id node prev] else []
              | None => []
              end)).
  2:{ intros acc [id node]. destruct (map_get sm id); [|now rewrite app_nil_r].
      destruct (_ && _); [reflexivity|now rewrite app_nil_r]. }
  rewrite (fold_left_push _ (fun '(id, node) =>
              if negb (map_has em id)
              then [removed_record title part end_date id node] else [])).
  2:{ intros acc [id node]. destruct (negb _); [reflexivity|now rewrite app_nil_r]. }
  rewrite (fold_left_push _ (fun '(id, node) =>
              if negb (map_has sm id)
              then [added_record title part end_date id node] else [])).
  2:{ intros acc [id node]. destruct (negb _); [reflexivity|now rewrite app_nil_r]. }
  simpl. now rewrite app_assoc.
Qed.

(** The three record types the engine emits. *)
Definition emitted_type (c : change) : Prop :=
  ctype c = "added" \/ ctype c = "removed" \/ ctype c = "modified".

Lemma added_list_types title part end_date sm em :
  Forall (fun c => ctype c = "added") (added_list title part end_date sm em).
Proof.
  unfold added_list. induction em as [|[id node] em IH]; simpl; [constructor|].
  apply Forall_app. split; [|exact IH].
  destruct (negb _); repeat constructor.
Qed.

Lemma removed_list_types title part end_date sm em :
  Forall (fun c => ctype c = "removed") (removed_list title part end_date sm em).
Proof.
  unfold removed_list. induction sm as [|[id node] sm IH]; simpl; [constructor|].
  apply Forall_app. split; [|exact IH].
  destruct (negb _); repeat constructor.
Qed.

Lemma modified_list_types title part end_date sm em :
  Forall (fun c => ctype c = "modified") (modified_list title part end_date sm em).
Proof.
  unfold modified_list. induction em as [|[id node] em IH]; simpl; [constructor|].
  apply Forall_app. split; [|exact IH].
  destruct (map_get sm id); [destruct (_ && _)|]; repeat constructor.
Qed.

Lemma diff_changes_types title part end_date sm em :
  Forall emitted_type (diff_changes title part end_date sm em).
Proof.
  rewrite diff_changes_split. repeat rewrite Forall_app. repeat split.
  - eapply Forall_impl; [|apply added_list_types]. intros c H; now left.
  - eapply Forall_impl; [|apply removed_list_types]. intros c H; now right; left.
  - eapply Forall_impl; [|apply modified_list_types]. intros c H; now right; right.
Qed.

Lemma filter_changes_sub ct l :
  forall c, In c (filter_changes ct l) -> In c l.
Proof.
  intros c. destruct ct as [tys|]; simpl; [|tauto].
  rewrite filter_In. tauto.
Qed.

Lemma count_types_additive l :
  Forall emitted_type l ->
  count_type "added" l + count_type "removed" l + count_type "modified" l = length l.
Proof.
  unfold count_type. induction l as [|c l IH]; intros Hl; simpl; [reflexivity|].
  inversion Hl as [|? ? Hc Hrest]; subst.
  specialize (IH Hrest).
  destruct Hc as [H|[H|H]]; rewrite H; simpl; lia.
Qed.

Lemma diffTitleStructures_inv nts fetch title start_date end_date part ct res :
  diffTitleStructures nts fetch title start_date end_date part ct = Some res ->
  exists sd ed sm em,
    fetch start_date title part = Some sd /\ fetch end_date title part = Some ed /\
    buildSectionMap nts sd = Some sm /\ buildSectionMap nts ed = Some em /\
    res = (summarize (filter_changes ct (diff_changes title part end_date sm em)),
           filter_changes ct (diff_changes title part end_date sm em)).
Proof.
  unfold diffTitleStructures.
  destruct (fetch start_date title part) as [sd|] eqn:Hs; [|discriminate].
  destruct (fetch end_date title part) as [ed|] eqn:He; [|discriminate].
  destruct (buildSectionMap nts sd) as [sm|] eqn:Hsm; [|discriminate].
  destruct (buildSectionMap nts ed) as [em|] eqn:Hem; [|discriminate].
  intros H; injection H as <-. now exists sd, ed, sm, em.
Qed.

Lemma existsb_eqb_In (x : string) (l : list string) :
  existsb (String.eqb x) l = true <-> In x l.
Proof.
  rewrite existsb_exists. split.
  - intros [y [Hy Heq]]. apply String.eqb_eq in Heq. now subst.
  - intros H. exists x. split; [exact H|apply String.eqb_refl].
Qed.

(** C2: with a [change_types] filter the changes are exactly the
    unfiltered records whose type is listed; without one every record is
    kept; the summary counts are taken over the returned (filtered) list. *)
Theorem diff_filter_summary nts fetch title start_date end_date part ct
    summ chs summ0 all :
  diffTitleStructures nts fetch title start_date end_date part ct = Some (summ, chs) ->
  diffTitleStructures nts fetch title start_date end_date part None = Some (summ0, all) ->
  (forall tys, ct = Some tys ->
     Forall (fun c => In (ctype c) tys) chs /\
     (forall c, In c chs <-> In c all /\ In (ctype c) tys)) /\
  (ct = None -> chs = all) /\
  total_changes summ = length chs /\
  sections_added summ = count_type "added" chs /\
  sections_removed summ = count_type "removed" chs /\
  sections_modified summ = count_type "modified" chs.
Proof.
  intros H H0.
  apply diffTitleStructures_inv in H as (sd & ed & sm & em & Hs & He & Hsm & Hem & Hr).
  apply diffTitleStructures_inv in H0 as (sd' & ed' & sm' & em' & Hs' & He' & Hsm' & Hem' & Hr0).
  rewrite Hs in Hs'; injection Hs' as <-. rewrite He in He'; injection He' as <-.
  rewrite Hsm in Hsm'; injection Hsm' as <-. rewrite Hem in Hem'; injection Hem' as <-.
  injection Hr as -> ->. injection Hr0 as _ ->.
  split; [|split; [intros ->; reflexivity|repeat split]].
  intros tys ->. simpl. split.
  - apply Forall_forall. intros c Hc.
    apply filter_In in Hc as [_ Hc]. now apply existsb_eqb_In.
  - intros c. rewrite filter_In, existsb_eqb_In. tauto.
Qed.

Lemma diff_filter_summary_witness :
  exists summ chs summ0 all,
    diffTitleStructures print_number (serve scenario_start scenario_end) 21
      "2024-01-01" "2024-06-01" None (Some ["added"]) = Some (summ, chs) /\
    diffTitleStructures print_number (serve scenario_start scenario_end) 21
      "2024-01-01" "2024-06-01" None None = Some (summ0, all) /\
    ((forall tys, Some ["added"] = Some tys ->
       Forall (fun c => In (ctype c) tys) chs /\
       (forall c, In c chs <-> In c all /\ In (ctype c) tys)) /\
     (Some ["added"] = None -> chs = all) /\
     total_changes summ = length chs /\
     sections_added summ = count_type "added" chs /\
     sections_removed summ = count_type "removed" chs /\
     sections_modified summ = count_type "modified" chs).
Proof.
  do 4 eexists. split; [reflexivity|]. split; [reflexivity|].
  eapply (diff_filter_summary print_number (serve scenario_start scenario_end) 21
           "2024-01-01" "2024-06-01" None (Some ["added"])); reflexivity.
Defined.

(** C8: the three per-type counts of every summary add up to
    [total_changes], whatever the filter. *)
Theorem diff_summary_additive nts fetch title start_date end_date part ct summ chs :
  diffTitleStructures nts fetch title start_date end_date part ct = Some (summ, chs) ->
  sections_added summ + sections_removed summ + sections_modified summ
  = total_changes summ.
Proof.
  intros H.
  apply diffTitleStructures_inv in H as (sd & ed & sm & em & _ & _ & _ & _ & Hr).
  injection Hr as -> ->. simpl. apply count_types_additive.
  apply Forall_forall. intros c Hc. apply filter_changes_sub in Hc.
  revert c Hc. apply Forall_forall. apply diff_changes_types.
Qed.

Lemma diff_summary_additive_witness :
  exists summ chs,
    diffTitleStructures print_number (serve scenario_start scenario_end) 21
      "2024-01-01" "2024-06-01" None (Some ["added"; "modified"]) = Some (summ, chs) /\
    sections_added summ + sections_removed summ + sections_modified summ
    = total_changes summ.
Proof.
  do 2 eexists. split; [reflexivity|].
  eapply (diff_summary_additive print_number (serve scenario_start scenario_end) 21
           "2024-01-01" "2024-06-01" None (Some ["added"; "modified"])); reflexivity.
Defined.

(** C10: an empty [change_types] array keeps no record: the changes are
    empty and every count is zero, whatever the two snapshots. *)
Theorem diff_empty_filter nts fetch title start_date end_date part summ chs :
  diffTitleStructures nts fetch title start_date end_date part (Some []) = Some (summ, chs) ->
  chs = [] /\ total_changes summ = 0 /\ sections_added summ = 0 /\
  sections_removed summ = 0 /\ sections_modified summ = 0.
Proof.
  intros H.
  apply diffTitleStructures_inv in H as (sd & ed & sm & em & _ & _ & _ & _ & Hr).
  injection Hr as -> ->. simpl.
  assert (E : forall l : list change, filter (fun c => existsb (String.eqb (ctype c)) []) l = []).
  { intros l. induction l as [|c l IH]; simpl; [reflexivity|exact IH]. }
  rewrite E. repeat split.
Qed.

Lemma diff_empty_filter_witness :
  exists summ chs,
    diffTitleStructures print_number (serve scenario_start scenario_end) 21
      "2024-01-01" "2024-06-01" None (Some []) = Some (summ, chs) /\
    (chs = [] /\ total_changes summ = 0 /\ sections_added summ = 0 /\
     sections_removed summ = 0 /\ sections_modified summ = 0).
Proof.
  do 2 eexists. split; [reflexivity|].
  eapply (diff_empty_filter print_number (serve scenario_start scenario_end) 21
           "2024-01-01" "2024-06-01" None); reflexivity.
Defined.

(** ** Dates and the end-date clamp *)

Lemma time_clip_bounds t t' :
  time_clip t = Some t' -> (- max_time <= t' <= max_time)%Z.
Proof.
  unfold time_clip. destruct (Z.abs t <=? max_time)%Z eqn:E; [|discriminate].
  intros H; injection H as <-. apply Z.leb_le in E. lia.
Qed.

Lemma toDate_bounds po v t :
  toDate po v = Some t -> (- max_time <= t <= max_time)%Z.
Proof.
  destruct v as [[|c s]|]; simpl; try discriminate.
  unfold date_parse.
  destruct (parse_iso_date _) as [t0|]; [apply time_clip_bounds|].
  destruct (po _) as [t0|]; [apply time_clip_bounds|discriminate].
Qed.

(** C7: an absent item start is the far-past sentinel, so only the filter
    start can exclude the item; an absent item end is the far-future
    sentinel, so only the filter end can exclude it; two open filter bounds
    accept every item; and the two examples of the specification. *)
Theorem rangesOverlap_open_bounds po :
  (forall fs fe ie,
     rangesOverlap po fs fe None ie =
     match toDate po fs with
     | Some f => (f <=? match toDate po ie with Some t => t | None => max_time end)%Z
     | None => true
     end) /\
  (forall fs fe is,
     rangesOverlap po fs fe is None =
     match toDate po fe with
     | Some e => (match toDate po is with Some t => t | None => - max_time end <=? e)%Z
     | None => true
     end) /\
  (forall fs fe is ie,
     toDate po fs = None -> toDate po fe = None ->
     rangesOverlap po fs fe is ie = true) /\
  rangesOverlap po (Some "2024-01-01") (Some "2024-06-01") None (Some "2024-02-01") = true /\
  rangesOverlap po (Some "2024-01-01") (Some "2024-02-01") (Some "2024-03-01") None = false.
Proof.
  split; [|split; [|split; [|split]]].
  - intros fs fe ie. unfold rangesOverlap. change (toDate po None) with (@None Z).
    destruct (toDate po fe) as [e|] eqn:Hfe.
    + apply toDate_bounds in Hfe.
      assert (Hn : (e <? - max_time)%Z = false) by (apply Z.ltb_ge; lia).
      rewrite Hn.
      destruct (toDate po fs) as [f|]; [|reflexivity].
      destruct (_ <? f)%Z eqn:E; symmetry.
      * apply Z.ltb_lt in E. apply Z.leb_gt. exact E.
      * apply Z.ltb_ge in E. apply Z.leb_le. exact E.
    + destruct (toDate po fs) as [f|]; [|reflexivity].
      destruct (_ <? f)%Z eqn:E; symmetry.
      * apply Z.ltb_lt in E. apply Z.leb_gt. exact E.
      * apply Z.ltb_ge in E. apply Z.leb_le. exact E.
  - intros fs fe is. unfold rangesOverlap. change (toDate po None) with (@None Z).
    destruct (toDate po fs) as [f|] eqn:Hfs.
    + apply toDate_bounds in Hfs.
      assert (Hn : (max_time <? f)%Z = false) by (apply Z.ltb_ge; lia).
      rewrite Hn.
      destruct (toDate po fe) as [e|]; [|reflexivity].
      destruct (e <? _)%Z eqn:E; symmetry.
      * apply Z.ltb_lt in E. apply Z.leb_gt. exact E.
      * apply Z.ltb_ge in E. apply Z.leb_le. exact E.
    + destruct (toDate po fe) as [e|]; [|reflexivity].
      destruct (e <? _)%Z eqn:E; symmetry.
      * apply Z.ltb_lt in E. apply Z.leb_gt. exact E.
      * apply Z.ltb_ge in E. apply Z.leb_le. exact E.
  - intros fs fe is ie Hfs Hfe. unfold rangesOverlap. now rewrite Hfs, Hfe.
  - reflexivity.
  - reflexivity.
Qed.

Lemma rangesOverlap_open_bounds_witness :
  toDate (fun _ => None) None = None /\ toDate (fun _ => None) (Some "") = None /\
  rangesOverlap (fun _ => None) None (Some "") (Some "2024-03-01") (Some "2024-02-01") = true.
Proof.
  split; [reflexivity|]. split; [reflexivity|].
  apply (proj1 (proj2 (proj2 (rangesOverlap_open_bounds (fun _ => None)))));
    reflexivity.
Defined.

(** C5: both composite handlers clamp the requested end date to a known
    (non-empty) [latest_issue_date] exactly when the request sorts after it,
    and leave it unchanged otherwise; with 2025-01-01 as latest issue a
    request for 2025-06-01 runs on 2025-01-01. *)
Theorem end_date_clamp :
  (forall latest requested today,
     let expected :=
       match latest with
       | Some l => if negb (String.eqb l "") && js_string_gt requested l
                   then l else requested
       | None => requested
       end in
     compare_effective_end latest requested = expected /\
     recent_effective_end latest (Some requested) today = expected) /\
  compare_effective_end (Some "2025-01-01") "2025-06-01" = "2025-01-01" /\
  (forall today, recent_effective_end (Some "2025-01-01") (Some "2025-06-01") today
                 = "2025-01-01").
Proof.
  split; [|split; [reflexivity|intros; reflexivity]].
  intros latest requested today. split; reflexivity.
Qed.

(** ** The flattener *)

Lemma record_all_app nts a b m :
  record_all nts (a ++ b) m =
  match record_all nts a m with
  | Some m' => record_all nts b m'
  | None => None
  end.
Proof.
  revert m. induction a as [|n a IH]; intros m; simpl; [reflexivity|].
  destruct (record_section nts n m); [apply IH|reflexivity].
Qed.

Lemma collectSections_visited_aux nts v :
  (forall m, collectSections nts v m = record_all nts (visited v) m) /\
  (forall items, v = JArr items ->
     Forall (fun x => forall m, collectSections nts x m = record_all nts (visited x) m) items).
Proof.
  induction v as [| | | | items IH | ps IH] using json_ind';
    (split; [intros m|intros items' Heq]); try reflexivity; try discriminate.
  - injection Heq as <-. eapply Forall_impl; [|exact IH]. intros x Hx; apply Hx.
  - simpl.
    destruct (if is_section_node ps then _ else _) as [m1|]; [|reflexivity].
    clear m. revert m1.
    induction ps as [|[k c] rest IHps]; intros m1; [reflexivity|].
    inversion IH as [|? ? Hc Hrest]; subst. simpl in Hc.
    destruct (String.eqb k "children"); [|now apply IHps].
    destruct c as [| | | |children|]; try reflexivity.
    destruct Hc as [_ Hitems]. specialize (Hitems children eq_refl).
    clear IHps Hrest IH.
    revert m1. induction children as [|x more IHc]; intros m1; [reflexivity|].
    inversion Hitems as [|? ? Hx Hmore]; subst.
    simpl. rewrite record_all_app, Hx.
    destruct (record_all nts (visited x) m1); [now apply IHc|reflexivity].
Qed.

Lemma collectSections_visited nts v m :
  collectSections nts v m = record_all nts (visited v) m.
Proof. apply collectSections_visited_aux. Qed.

Lemma record_section_entry nts n m :
  record_section nts n m =
  match section_entry nts n with
  | None => Some m
  | Some None => None
  | Some (Some k) => Some (map_set m k n)
  end.
Proof.
  destruct n; try reflexivity. simpl.
  destruct (is_section_node props); [|reflexivity].
  destruct (prop_lookup "identifier" props); [|reflexivity].
  destruct (js_to_string nts j); reflexivity.
Qed.

Lemma record_all_none nts l m :
  record_all nts l m = None <-> Exists (fun n => section_entry nts n = Some None) l.
Proof.
  revert m. induction l as [|n l IH]; intros m; simpl.
  - split; [discriminate|intros H; inversion H].
  - rewrite record_section_entry, Exists_cons.
    destruct (section_entry nts n) as [[k|]|].
    + rewrite IH. split; [tauto|intros [H|H]; [discriminate|exact H]].
    + split; [intros _; now left|reflexivity].
    + rewrite IH. split; [tauto|intros [H|H]; [discriminate|exact H]].
Qed.

Lemma map_get_set m k v k' :
  map_get (map_set m k v) k' = if String.eqb k k' then Some v else map_get m k'.
Proof.
  induction m as [|[k0 v0] rest IH]; simpl.
  - now destruct (String.eqb k k').
  - destruct (String.eqb k0 k) eqn:E0.
    + apply String.eqb_eq in E0. subst k0. simpl. now destruct (String.eqb k k').
    + simpl. rewrite IH.
      destruct (String.eqb k0 k') eqn:E1; [|reflexivity].
      apply String.eqb_eq in E1. subst k'.
      destruct (String.eqb k k0) eqn:E2; [|reflexivity].
      apply String.eqb_eq in E2. subst. now rewrite String.eqb_refl in E0.
Qed.

Lemma map_has_get m k :
  map_has m k = match map_get m k with Some _ => true | None => false end.
Proof.
  induction m as [|[k0 v0] rest IH]; simpl; [reflexivity|].
  now destruct (String.eqb k0 k).
Qed.

Lemma map_has_In m k : map_has m k = true <-> In k (map_keys m).
Proof.
  induction m as [|[k0 v0] rest IH]; simpl; [split; [discriminate|tauto]|].
  rewrite orb_true_iff, IH, String.eqb_eq. tauto.
Qed.

Lemma map_keys_set m k v :
  map_keys (map_set m k v) = if map_has m k then map_keys m else map_keys m ++ [k].
Proof.
  induction m as [|[k0 v0] rest IH]; simpl; [reflexivity|].
  destruct (String.eqb k0 k) eqn:E; simpl; [reflexivity|].
  rewrite IH. now destruct (map_has rest k).
Qed.

Lemma map_set_nodup m k v :
  NoDup (map_keys m) -> NoDup (map_keys (map_set m k v)).
Proof.
  intros H. rewrite map_keys_set. destruct (map_has m k) eqn:E; [exact H|].
  apply NoDup_app; [exact H|repeat constructor; simpl; tauto|].
  intros x Hx [<-|[]]. apply map_has_In in Hx. congruence.
Qed.

Lemma In_map_set m k v k' v' :
  In (k', v') (map_set m k v) -> (k' = k /\ v' = v) \/ In (k', v') m.
Proof.
  induction m as [|[k0 v0] rest IH]; simpl.
  - intros [H|[]]. injection H as -> ->. now left.
  - destruct (String.eqb k0 k) eqn:E.
    + apply String.eqb_eq in E. subst k0. intros [H|H].
      * injection H as -> ->. now left.
      * right; now right.
    + intros [H|H]; [right; now left|].
      destruct (IH H) as [H'|H']; [now left|right; now right].
Qed.

Lemma NoDup_map_get m k v :
  NoDup (map_keys m) -> In (k, v) m -> map_get m k = Some v.
Proof.
  induction m as [|[k0 v0] rest IH]; simpl; [tauto|].
  intros Hnd Hin. inversion Hnd as [|? ? Hnot Hnd']; subst.
  destruct Hin as [H|H].
  - injection H as -> ->. now rewrite String.eqb_refl.
  - destruct (String.eqb k0 k) eqn:E; [|now apply IH].
    apply String.eqb_eq in E. subst k0. exfalso. apply Hnot.
    apply (in_map fst) in H. exact H.
Qed.

Lemma record_all_some nts l m m' :
  record_all nts l m = Some m' ->
  (NoDup (map_keys m) -> NoDup (map_keys m')) /\
  (forall k, map_get m' k =
             match last_keyed nts l k with Some n => Some n | None => map_get m k end) /\
  (forall k v, In (k, v) m' ->
     In (k, v) m \/ (In v l /\ section_entry nts v = Some (Some k))).
Proof.
  revert m. induction l as [|n l IH]; intros m; simpl.
  - intros H; injection H as <-. split; [tauto|split; [reflexivity|tauto]].
  - rewrite record_section_entry.
    destruct (section_entry nts n) as [[key|]|] eqn:En; [|discriminate|].
    + intros H. destruct (IH _ H) as (Hnd & Hget & Hin). split; [|split].
      * intros Hm. apply Hnd. now apply map_set_nodup.
      * intros k. rewrite Hget. destruct (last_keyed nts l k); [reflexivity|].
        rewrite map_get_set. now destruct (String.eqb key k).
      * intros k v Hkv. destruct (Hin k v Hkv) as [H1|(H1 & H2)].
        -- apply In_map_set in H1 as [(-> & ->)|H1]; [|now left].
           right. split; [now left|exact En].
        -- right. split; [now right|exact H2].
    + intros H. destruct (IH _ H) as (Hnd & Hget & Hin). split; [exact Hnd|split].
      * intros k. rewrite Hget. now destruct (last_keyed nts l k).
      * intros k v Hkv. destruct (Hin k v Hkv) as [H1|(H1 & H2)]; [now left|].
        right. split; [now right|exact H2].
Qed.

(** A flattened map: unique keys, every entry a visited section node
    filed under its own key. *)
Lemma buildSectionMap_entries nts doc m :
  buildSectionMap nts doc = Some m ->
  NoDup (map_keys m) /\
  forall k v, In (k, v) m -> In v (visited doc) /\ section_entry nts v = Some (Some k).
Proof.
  unfold buildSectionMap. rewrite collectSections_visited.
  intros H. destruct (record_all_some _ _ _ _ H) as (Hnd & _ & Hin).
  split; [apply Hnd; constructor|].
  intros k v Hkv. destruct (Hin k v Hkv) as [[]|H']. exact H'.
Qed.

Lemma section_entry_obj nts v k :
  section_entry nts v = Some k -> exists ps, v = JObj ps.
Proof. destruct v; try discriminate. intros _. now eexists. Qed.

Lemma visited_obj ps :
  visited (JObj ps) =
  JObj ps :: match prop_lookup "children" ps with
             | Some (JArr cs) => concat (map visited cs)
             | _ => []
             end.
Proof.
  change (visited (JObj ps)) with (JObj ps :: tl (visited (JObj ps))). f_equal.
  induction ps as [|[k c] rest IH]; [reflexivity|].
  simpl. destruct (String.eqb k "children"); [|exact IH].
  destruct c as [| | | |cs|]; try reflexivity.
  clear. induction cs as [|x cs IH]; simpl; [reflexivity|]. now rewrite IH.
Qed.

(** C6 (counterexample): with two section nodes sharing an identifier
    only the later one is in the map, and a section whose identifier is an
    object with an own [toString] property makes the flattener throw. *)
Lemma flatten_counterexample :
  buildSectionMap print_number
    (title_node [section_node "1" "first" []; section_node "1" "second" []])
  = Some [("1", section_node "1" "second" [])] /\
  buildSectionMap print_number
    (JObj [("type", JStr "section"); ("identifier", JObj [("toString", JNull)])])
  = None.
Proof. split; reflexivity. Qed.

(** C6 (amended): the flattener throws exactly when a visited section
    node's identifier cannot be converted to a string; otherwise its keys
    are unique and each key is mapped to the last visited node (depth-first
    pre-order) with [type === "section"], a truthy identifier and that key;
    and the children of every object node are visited, whatever its type. *)
Theorem buildSectionMap_spec nts doc :
  (buildSectionMap nts doc = None <->
   Exists (fun n => section_entry nts n = Some None) (visited doc)) /\
  (forall m, buildSectionMap nts doc = Some m ->
     NoDup (map_keys m) /\
     forall k, map_get m k = last_keyed nts (visited doc) k) /\
  (forall ps cs c, prop_lookup "children" ps = Some (JArr cs) -> In c cs ->
     incl (visited c) (visited (JObj ps))).
Proof.
  unfold buildSectionMap. rewrite collectSections_visited.
  split; [apply record_all_none|split].
  - intros m H. destruct (record_all_some _ _ _ _ H) as (Hnd & Hget & _).
    split; [apply Hnd; constructor|].
    intros k. rewrite Hget. now destruct (last_keyed nts (visited doc) k).
  - intros ps cs c Hch Hc. rewrite visited_obj, Hch.
    intros x Hx. right. apply in_concat. exists (visited c).
    split; [now apply in_map|exact Hx].
Qed.

(** ** Classification of the records *)

Lemma map_get_In m k v : map_get m k = Some v -> In (k, v) m.
Proof.
  induction m as [|[k0 v0] rest IH]; simpl; [discriminate|].
  destruct (String.eqb k0 k) eqn:E.
  - intros H; injection H as <-. apply String.eqb_eq in E. subst. now left.
  - intros H. right. now apply IH.
Qed.

Lemma count_records_app ty id a b :
  count_records ty id (a ++ b) = count_records ty id a + count_records ty id b.
Proof. unfold count_records. now rewrite filter_app, length_app. Qed.

Lemma count_records_zero ty id l :
  (forall c, In c l -> section c <> id) -> count_records ty id l = 0.
Proof.
  unfold count_records. induction l as [|c l IH]; intros H; simpl; [reflexivity|].
  destruct (String.eqb (section c) id) eqn:E.
  - exfalso. apply String.eqb_eq in E. exact (H c (or_introl eq_refl) E).
  - rewrite andb_false_r. apply IH. intros c' Hc'. apply H. now right.
Qed.

Lemma count_records_other_type ty id t l :
  Forall (fun c => ctype c = t) l -> t <> ty -> count_records ty id l = 0.
Proof.
  unfold count_records. induction l as [|c l IH]; intros H Hne; simpl; [reflexivity|].
  inversion H as [|? ? Hc Hl]; subst.
  destruct (String.eqb (ctype c) ty) eqn:E.
  - apply String.eqb_eq in E. congruence.
  - now apply IH.
Qed.

Lemma count_flat_map ty id (em : jsmap) (g : string * json -> list change) :
  NoDup (map_keys em) ->
  (forall k v c, In c (g (k, v)) -> section c = k) ->
  count_records ty id (flat_map g em) =
  match map_get em id with
  | Some v => count_records ty id (g (id, v))
  | None => 0
  end.
Proof.
  intros Hnd Hg. induction em as [|[k v] rest IH]; simpl; [reflexivity|].
  inversion Hnd as [|? ? Hnot Hnd']; subst.
  rewrite count_records_app.
  destruct (String.eqb k id) eqn:E.
  - apply String.eqb_eq in E. subst k.
    rewrite (count_records_zero ty id (flat_map g rest)); [lia|].
    intros c Hc Hs. apply in_flat_map in Hc as ([k' v'] & Hin & Hc).
    apply Hg in Hc. subst. apply Hnot. now apply (in_map fst) in Hin.
  - rewrite (count_records_zero ty id (g (k, v))), IH by
      (try exact Hnd'; intros c Hc Hs; apply Hg in Hc; subst;
       now rewrite String.eqb_refl in E).
    reflexivity.
Qed.

(** C1: without a filter, the differ emits exactly one [added] record per
    identifier of [endMap] missing from [startMap], one [removed] record per
    identifier of [startMap] missing from [endMap], one [modified] record per
    identifier of both whose nodes differ in one of the four compared
    fields, and nothing else. *)
Theorem diff_classification nts fetch title start_date end_date part
    sd ed sm em summ chs :
  fetch start_date title part = Some sd ->
  fetch end_date title part = Some ed ->
  buildSectionMap nts sd = Some sm ->
  buildSectionMap nts ed = Some em ->
  diffTitleStructures nts fetch title start_date end_date part None = Some (summ, chs) ->
  Forall emitted_type chs /\
  forall id,
    count_records "added" id chs =
      (if map_has em id && negb (map_has sm id) then 1 else 0) /\
    count_records "removed" id chs =
      (if map_has sm id && negb (map_has em id) then 1 else 0) /\
    count_records "modified" id chs =
      match map_get sm id, map_get em id with
      | Some p, Some n => if differs n p then 1 else 0
      | _, _ => 0
      end.
Proof.
  intros Hs He Hsm Hem H.
  apply diffTitleStructures_inv in H as (sd' & ed' & sm' & em' & Hs' & He' & Hsm' & Hem' & Hr).
  rewrite Hs in Hs'; injection Hs' as <-. rewrite He in He'; injection He' as <-.
  rewrite Hsm in Hsm'; injection Hsm' as <-. rewrite Hem in Hem'; injection Hem' as <-.
  injection Hr as _ ->. simpl filter_changes.
  split; [apply diff_changes_types|intros id].
  destruct (buildSectionMap_entries _ _ _ Hsm) as [Hnds Hents].
  destruct (buildSectionMap_entries _ _ _ Hem) as [Hnde Hente].
  rewrite diff_changes_split, !count_records_app.
  pose proof (added_list_types title part end_date sm em) as Ta.
  pose proof (removed_list_types title part end_date sm em) as Tr.
  pose proof (modified_list_types title part end_date sm em) as Tm.
  split; [|split].
  - rewrite (count_records_other_type _ _ _ _ Tr),
      (count_records_other_type _ _ _ _ Tm) by discriminate.
    unfold added_list. rewrite count_flat_map by
      (first [exact Hnde | intros k v c Hc; simpl in Hc;
       destruct (negb _); [destruct Hc as [<-|[]]; reflexivity|destruct Hc]]).
    rewrite (map_has_get em).
    destruct (map_get em id); simpl; [|reflexivity].
    destruct (map_has sm id); simpl; [reflexivity|].
    unfold count_records. simpl. now rewrite String.eqb_refl.
  - rewrite (count_records_other_type _ _ _ _ Ta),
      (count_records_other_type _ _ _ _ Tm) by discriminate.
    unfold removed_list. rewrite count_flat_map by
      (first [exact Hnds | intros k v c Hc; simpl in Hc;
       destruct (negb _); [destruct Hc as [<-|[]]; reflexivity|destruct Hc]]).
    rewrite (map_has_get sm).
    destruct (map_get sm id); simpl; [|reflexivity].
    destruct (map_has em id); simpl; [reflexivity|].
    unfold count_records. simpl. now rewrite String.eqb_refl.
  - rewrite (count_records_other_type _ _ _ _ Ta),
      (count_records_other_type _ _ _ _ Tr) by discriminate.
    unfold modified_list. rewrite count_flat_map by
      (first [exact Hnde | intros k v c Hc; simpl in Hc;
       destruct (map_get sm k); [destruct (_ && _)|];
       [destruct Hc as [<-|[]]; reflexivity|destruct Hc|destruct Hc]]).
    destruct (map_get sm id) as [p|] eqn:Ep; destruct (map_get em id) as [n|]; simpl;
      try reflexivity.
    apply map_get_In, Hents in Ep as [_ Ep]. apply section_entry_obj in Ep as [ps ->].
    simpl. destruct (differs n (JObj ps)); [|reflexivity].
    unfold count_records. simpl. now rewrite String.eqb_refl.
Qed.

Lemma diff_classification_witness :
  exists sd ed sm em summ chs,
    serve scenario_start scenario_end "2024-01-01" 21 None = Some sd /\
    serve scenario_start scenario_end "2024-06-01" 21 None = Some ed /\
    buildSectionMap print_number sd = Some sm /\
    buildSectionMap print_number ed = Some em /\
    diffTitleStructures print_number (serve scenario_start scenario_end) 21
      "2024-01-01" "2024-06-01" None None = Some (summ, chs) /\
    (Forall emitted_type chs /\
     forall id,
       count_records "added" id chs =
         (if map_has em id && negb (map_has sm id) then 1 else 0) /\
       count_records "removed" id chs =
         (if map_has sm id && negb (map_has em id) then 1 else 0) /\
       count_records "modified" id chs =
         match map_get sm id, map_get em id with
         | Some p, Some n => if differs n p then 1 else 0
         | _, _ => 0
         end).
Proof.
  do 6 eexists.
  split; [reflexivity|]. split; [reflexivity|]. split; [reflexivity|].
  split; [reflexivity|]. split; [reflexivity|].
  eapply (diff_classification print_number (serve scenario_start scenario_end) 21
            "2024-01-01" "2024-06-01" None); reflexivity.
Defined.

(** ** Order of the records *)

Lemma flattened_value_obj nts doc m k p :
  buildSectionMap nts doc = Some m -> map_get m k = Some p ->
  exists ps, p = JObj ps.
Proof.
  intros Hm Hp. apply buildSectionMap_entries in Hm as [_ Hents].
  apply map_get_In, Hents in Hp as [_ Hp]. now apply section_entry_obj in Hp.
Qed.

(** C4: the change list is, before the filter keeps a subsequence of it,
    the [added] records in [endMap] order, then the [removed] records in
    [startMap] order, then the [modified] records in [endMap] order. *)
Theorem diff_order nts fetch title start_date end_date part ct
    sd ed sm em summ chs :
  fetch start_date title part = Some sd ->
  fetch end_date title part = Some ed ->
  buildSectionMap nts sd = Some sm ->
  buildSectionMap nts ed = Some em ->
  diffTitleStructures nts fetch title start_date end_date part ct = Some (summ, chs) ->
  exists la lr lm,
    chs = filter_changes ct (la ++ lr ++ lm) /\
    Forall (fun c => ctype c = "added") la /\
    map section la = map fst (filter (fun e => negb (map_has sm (fst e))) em) /\
    Forall (fun c => ctype c = "removed") lr /\
    map section lr = map fst (filter (fun e => negb (map_has em (fst e))) sm) /\
    Forall (fun c => ctype c = "modified") lm /\
    map section lm =
      map fst (filter (fun e => match map_get sm (fst e) with
                                | Some p => differs (snd e) p
                                | None => false
                                end) em).
Proof.
  intros Hs He Hsm Hem H.
  apply diffTitleStructures_inv in H as (sd' & ed' & sm' & em' & Hs' & He' & Hsm' & Hem' & Hr).
  rewrite Hs in Hs'; injection Hs' as <-. rewrite He in He'; injection He' as <-.
  rewrite Hsm in Hsm'; injection Hsm' as <-. rewrite Hem in Hem'; injection Hem' as <-.
  injection Hr as _ ->.
  exists (added_list title part end_date sm em),
    (removed_list title part end_date sm em),
    (modified_list title part end_date sm em).
  split; [now rewrite diff_changes_split|].
  split; [apply added_list_types|]. split.
  { unfold added_list. clear Hem. induction em as [|[k v] rest IH]; [reflexivity|].
    simpl. destruct (map_has sm k); simpl; [exact IH|now f_equal]. }
  split; [apply removed_list_types|]. split.
  { unfold removed_list. clear Hsm. induction sm as [|[k v] rest IH]; [reflexivity|].
    simpl. destruct (map_has em k); simpl; [exact IH|now f_equal]. }
  split; [apply modified_list_types|].
  unfold modified_list. clear Hem. induction em as [|[k v] rest IH]; [reflexivity|].
  simpl. destruct (map_get sm k) as [p|] eqn:Ep; [|exact IH].
  destruct (flattened_value_obj _ _ _ _ _ Hsm Ep) as [ps ->]. simpl.
  destruct (differs v (JObj ps)); simpl; [now f_equal|exact IH].
Qed.

Lemma diff_order_witness :
  exists sd ed sm em summ chs,
    serve scenario_start scenario_end "2024-01-01" 21 None = Some sd /\
    serve scenario_start scenario_end "2024-06-01" 21 None = Some ed /\
    buildSectionMap print_number sd = Some sm /\
    buildSectionMap print_number ed = Some em /\
    diffTitleStructures print_number (serve scenario_start scenario_end) 21
      "2024-01-01" "2024-06-01" None (Some ["modified"; "added"]) = Some (summ, chs) /\
    exists la lr lm,
      chs = filter_changes (Some ["modified"; "added"]) (la ++ lr ++ lm) /\
      Forall (fun c => ctype c = "added") la /\
      map section la = map fst (filter (fun e => negb (map_has sm (fst e))) em) /\
      Forall (fun c => ctype c = "removed") lr /\
      map section lr = map fst (filter (fun e => negb (map_has em (fst e))) sm) /\
      Forall (fun c => ctype c = "modified") lm /\
      map section lm =
        map fst (filter (fun e => match map_get sm (fst e) with
                                  | Some p => differs (snd e) p
                                  | None => false
                                  end) em).
Proof.
  do 6 eexists.
  split; [reflexivity|]. split; [reflexivity|]. split; [reflexivity|].
  split; [reflexivity|]. split; [reflexivity|].
  eapply (diff_order print_number (serve scenario_start scenario_end) 21
            "2024-01-01" "2024-06-01" None (Some ["modified"; "added"])); reflexivity.
Defined.

(** ** Identical snapshots *)

Lemma flat_map_nil_all {A B : Type} (g : A -> list B) l :
  (forall x, In x l -> g x = []) -> flat_map g l = [].
Proof.
  induction l as [|x l IH]; intros H; simpl; [reflexivity|].
  rewrite H by (now left). apply IH. intros y Hy. apply H. now right.
Qed.

(** C9 (counterexample): one and the same document served at both dates,
    whose only section has an object as [size]: the two parses give two
    different objects, [!==] holds, and a [modified] record is emitted. *)
Lemma identical_docs_counterexample :
  match diffTitleStructures print_number
          (serve (title_node [section_node "1" "A" [("size", JObj [])]])
                 (title_node [section_node "1" "A" [("size", JObj [])]]))
          21 "2024-01-01" "2024-06-01" None None with
  | Some (summ, _) => sections_modified summ = 1 /\ total_changes summ = 1
  | None => False
  end.
Proof. vm_compute. split; reflexivity. Qed.

Lemma strict_eq_across_refl v :
  scalar_field v = true -> strict_eq_across v v = true.
Proof.
  destruct v as [[|b|x|str|items|ps]|]; simpl; try discriminate; intros H;
    try reflexivity.
  - apply Bool.eqb_reflx.
  - exact H.
  - apply String.eqb_refl.
Qed.

Lemma differs_refl n :
  forallb (fun f => scalar_field (get n f))
    ["label_description"; "reserved"; "received_on"; "size"] = true ->
  differs n n = false.
Proof.
  simpl. rewrite !andb_true_iff. intros (H1 & H2 & H3 & H4 & _).
  unfold differs.
  now rewrite !strict_eq_across_refl.
Qed.

(** C9 (amended): when the same document is served at both dates and
    every section node in it has its four compared fields absent or scalar,
    a diff that returns has no record and all counts are zero. *)
Theorem diff_identical_scalar nts fetch title start_date end_date part ct doc
    summ chs :
  fetch start_date title part = Some doc ->
  fetch end_date title part = Some doc ->
  (forall n, In n (visited doc) -> section_entry nts n <> None ->
     forallb (fun f => scalar_field (get n f))
       ["label_description"; "reserved"; "received_on"; "size"] = true) ->
  diffTitleStructures nts fetch title start_date end_date part ct = Some (summ, chs) ->
  chs = [] /\ total_changes summ = 0 /\ sections_added summ = 0 /\
  sections_removed summ = 0 /\ sections_modified summ = 0.
Proof.
  intros Hs He Hscalar H.
  apply diffTitleStructures_inv in H as (sd & ed & sm & em & Hs' & He' & Hsm & Hem & Hr).
  rewrite Hs in Hs'; injection Hs' as <-. rewrite He in He'; injection He' as <-.
  rewrite Hsm in Hem; injection Hem as <-.
  destruct (buildSectionMap_entries _ _ _ Hsm) as [Hnd Hents].
  assert (E : diff_changes title part end_date sm sm = []).
  { assert (Hent : forall k v, In (k, v) sm ->
              map_has sm k = true /\ map_get sm k = Some v /\ differs v v = false).
    { intros k v Hin. pose proof (NoDup_map_get _ _ _ Hnd Hin) as Hget.
      split; [rewrite map_has_get, Hget; reflexivity|split; [exact Hget|]].
      destruct (Hents k v Hin) as [Hvis Hen].
      apply differs_refl, Hscalar; [exact Hvis|now rewrite Hen]. }
    rewrite diff_changes_split. unfold added_list, removed_list, modified_list.
    rewrite !flat_map_nil_all; [reflexivity| |  |];
      intros [k v] Hin; destruct (Hent k v Hin) as (Hhas & Hget & Hdiff).
    - now rewrite Hget, Hdiff, andb_false_r.
    - now rewrite Hhas.
    - now rewrite Hhas. }
  injection Hr as -> ->. rewrite E.
  destruct ct; repeat split.
Qed.

Lemma diff_identical_scalar_witness :
  exists summ chs,
    serve scenario_end scenario_end "2024-01-01" 21 None = Some scenario_end /\
    serve scenario_end scenario_end "2024-06-01" 21 None = Some scenario_end /\
    (forall n, In n (visited scenario_end) -> section_entry print_number n <> None ->
       forallb (fun f => scalar_field (get n f))
         ["label_description"; "reserved"; "received_on"; "size"] = true) /\
    diffTitleStructures print_number (serve scenario_end scenario_end) 21
      "2024-01-01" "2024-06-01" None None = Some (summ, chs) /\
    (chs = [] /\ total_changes summ = 0 /\ sections_added summ = 0 /\
     sections_removed summ = 0 /\ sections_modified summ = 0).
Proof.
  assert (Hsc : forall n, In n (visited scenario_end) -> section_entry print_number n <> None ->
       forallb (fun f => scalar_field (get n f))
         ["label_description"; "reserved"; "received_on"; "size"] = true).
  { intros n Hn. simpl in Hn.
    repeat (destruct Hn as [<-|Hn]; [intros _; reflexivity|]). destruct Hn. }
  do 2 eexists. split; [reflexivity|]. split; [reflexivity|]. split; [exact Hsc|].
  split; [reflexivity|].
  eapply (diff_identical_scalar print_number (serve scenario_end scenario_end) 21
            "2024-01-01" "2024-06-01" None None scenario_end); [reflexivity|reflexivity|exact Hsc|reflexivity].
Defined.

(** ** The scenario of the specification *)

Example scenario_diff :
  match diffTitleStructures print_number (serve scenario_start scenario_end) 21
          "2024-01-01" "2024-06-01" None None with
  | Some (summ, [a; m]) =>
      summ = {| total_changes := 2; sections_added := 1;
                sections_removed := 0; sections_modified := 1 |} /\
      ctype a = "added" /\ section a = "1306.05" /\ citation a = "21 CFR 1306.05" /\
      ctype m = "modified" /\ section m = "1306.04" /\
      option_map md_reserved (start_metadata m) = Some (JBool false) /\
      option_map md_reserved (end_metadata m) = Some (JBool true)
  | _ => False
  end.
Proof. vm_compute. repeat split. Qed.

(** ** The [part] of a record *)

(** C3 (failing input): without a caller [part], the [added] record of the
    scenario takes the part 1306 from its node's hierarchy, but the
    [modified] record of section 1306.04 and, with the two dates swapped, the
    [removed] record of section 1306.05 carry [null], although both nodes
    have [hierarchy.part] 1306. *)
Lemma part_hierarchy_only_added :
  match diffTitleStructures print_number (serve scenario_start scenario_end) 21
          "2024-01-01" "2024-06-01" None None with
  | Some (_, [a; m]) =>
      ctype a = "added" /\ cpart a = JStr "1306" /\
      ctype m = "modified" /\ section m = "1306.04" /\ cpart m = JNull
  | _ => False
  end /\
  match diffTitleStructures print_number (serve scenario_end scenario_start) 21
          "2024-01-01" "2024-06-01" None None with
  | Some (_, [r; m]) =>
      ctype r = "removed" /\ section r = "1306.05" /\ cpart r = JNull /\
      ctype m = "modified" /\ cpart m = JNull
  | _ => False
  end /\
  oget (get (section_node "1306.05" "B" [("hierarchy", JObj [("part", JStr "1306")])])
          "hierarchy") "part" = Some (JStr "1306").
Proof. vm_compute. repeat split. Qed.

(** * Further properties of the handlers and helpers *)

(** ** Date ranges *)

(** Case on a parsed date, keeping the bounds of its time value. *)
Ltac case_date po v :=
  let H := fresh "Hd" in
  destruct (toDate po v) eqn:H; [apply toDate_bounds in H|].

(** [rangesOverlap] is symmetric: the filter range overlaps the item range
    exactly when the item range, as a filter, overlaps the filter range. *)
Theorem rangesOverlap_sym po a b c d :
  rangesOverlap po a b c d = rangesOverlap po c d a b.
Proof.
  unfold rangesOverlap.
  case_date po a; case_date po b; case_date po c; case_date po d;
  cbv beta iota zeta; unfold max_time in *;
  repeat match goal with
         | |- context [(?p <? ?q)%Z] => destruct (Z.ltb_spec p q)
         end; try reflexivity; exfalso; lia.
Qed.

(** A target that is a date is within [[start, end]] exactly when the range
    overlaps the one-day item range [[target, target]]. *)
Theorem isWithinRange_point po target start end_ t :
  toDate po target = Some t ->
  isWithinRange po target start end_ = rangesOverlap po start end_ target target.
Proof.
  intros Ht. unfold isWithinRange, rangesOverlap. rewrite Ht.
  destruct (toDate po start) as [s|]; destruct (toDate po end_) as [e|];
    cbv beta iota zeta; reflexivity.
Qed.

Lemma isWithinRange_point_witness :
  exists t, toDate (fun _ => None) (Some "2024-03-01") = Some t /\
  isWithinRange (fun _ => None) (Some "2024-03-01") (Some "2024-01-01") (Some "2024-02-01")
  = rangesOverlap (fun _ => None) (Some "2024-01-01") (Some "2024-02-01")
      (Some "2024-03-01") (Some "2024-03-01").
Proof.
  eexists. split; [reflexivity|].
  eapply (isWithinRange_point (fun _ => None) (Some "2024-03-01")); reflexivity.
Defined.

(** A range whose start date is after its end date contains no target at
    all, yet it still overlaps an item with neither start nor end date. *)
Theorem inverted_range po start end_ s e :
  toDate po start = Some s -> toDate po end_ = Some e -> (e < s)%Z ->
  (forall target, isWithinRange po target start end_ = false) /\
  rangesOverlap po start end_ None None = true.
Proof.
  intros Hs He Hlt. pose proof (toDate_bounds _ _ _ Hs). pose proof (toDate_bounds _ _ _ He).
  split.
  - intros target. unfold isWithinRange. rewrite Hs, He.
    destruct (toDate po target) as [t|]; [|reflexivity]. cbv beta iota zeta.
    destruct (Z.ltb_spec t s); [reflexivity|].
    destruct (Z.ltb_spec e t); [reflexivity|]. lia.
  - unfold rangesOverlap. rewrite Hs, He. change (toDate po None) with (@None Z).
    cbv beta iota zeta.
    destruct (Z.ltb_spec max_time s); [lia|].
    destruct (Z.ltb_spec e (- max_time)); [lia|reflexivity].
Qed.

Lemma inverted_range_witness :
  exists s e,
    toDate (fun _ => None) (Some "2024-06-01") = Some s /\
    toDate (fun _ => None) (Some "2024-01-01") = Some e /\ (e < s)%Z /\
    ((forall target, isWithinRange (fun _ => None) target (Some "2024-06-01") (Some "2024-01-01") = false) /\
     rangesOverlap (fun _ => None) (Some "2024-06-01") (Some "2024-01-01") None None = true).
Proof.
  do 2 eexists. split; [reflexivity|]. split; [reflexivity|]. split; [vm_compute; reflexivity|].
  eapply (inverted_range (fun _ => None) (Some "2024-06-01") (Some "2024-01-01"));
    [reflexivity|reflexivity|vm_compute; reflexivity].
Defined.

(** ** The end-date clamp *)

Lemma js_string_lt_irrefl a : js_string_lt a a = false.
Proof.
  induction a as [|c a IH]; simpl; [reflexivity|]. now rewrite Ascii.eqb_refl.
Qed.

Lemma js_string_lt_asym a b : js_string_lt a b = true -> js_string_lt b a = false.
Proof.
  revert b. induction a as [|c a IH]; intros [|d b]; simpl; try discriminate; [reflexivity|].
  rewrite Ascii.eqb_sym. destruct (Ascii.eqb d c); [apply IH|].
  intros H. apply N.ltb_lt in H. apply N.ltb_ge. lia.
Qed.

(** With a known (non-empty) latest issue date, the effective end date is
    never after the latest issue date nor after the requested date, and
    clamping it again changes nothing. *)
Theorem clamp_end_never_later latest requested :
  String.eqb latest "" = false ->
  js_string_gt (clamp_end (Some latest) requested) latest = false /\
  js_string_gt (clamp_end (Some latest) requested) requested = false /\
  clamp_end (Some latest) (clamp_end (Some latest) requested) = clamp_end (Some latest) requested.
Proof.
  intros Hl. unfold clamp_end, js_string_gt. simpl truthy. rewrite Hl. simpl.
  destruct (js_string_lt latest requested) eqn:E.
  - rewrite js_string_lt_irrefl. split; [reflexivity|split; [|reflexivity]].
    now apply js_string_lt_asym.
  - rewrite js_string_lt_irrefl, E. repeat split.
Qed.

Lemma clamp_end_never_later_witness :
  String.eqb "2025-01-01" "" = false /\
  (js_string_gt (clamp_end (Some "2025-01-01") "2025-06-01") "2025-01-01" = false /\
   js_string_gt (clamp_end (Some "2025-01-01") "2025-06-01") "2025-06-01" = false /\
   clamp_end (Some "2025-01-01") (clamp_end (Some "2025-01-01") "2025-06-01")
   = clamp_end (Some "2025-01-01") "2025-06-01").
Proof.
  split; [reflexivity|]. apply (clamp_end_never_later "2025-01-01" "2025-06-01"). reflexivity.
Defined.

(** ** The corrections filter *)

Lemma filter_throwing_spec {A : Type} (p : A -> option bool) l r :
  filter_throwing p l = Some r ->
  (forall x, In x r <-> In x l /\ p x = Some true) /\ length r <= length l.
Proof.
  revert r. induction l as [|x l IH]; intros r; simpl.
  - intros H; injection H as <-. simpl. split; [tauto|lia].
  - destruct (p x) as [b|] eqn:Ep; [|discriminate].
    destruct (filter_throwing p l) as [r'|]; [|discriminate].
    intros H; injection H as <-. destruct (IH r' eq_refl) as [Hin Hlen].
    destruct b; simpl; (split; [intros y; rewrite Hin|lia]).
    + split; [intros [<-|H]; tauto|intros [[<-|H] H']; tauto].
    + split; [tauto|intros [[<-|H] H']; [congruence|tauto]].
Qed.

Lemma filter_throwing_all_true {A : Type} (p : A -> option bool) l :
  (forall x, In x l -> p x = Some true) -> filter_throwing p l = Some l.
Proof.
  induction l as [|x l IH]; intros H; simpl; [reflexivity|].
  rewrite H by (now left). rewrite IH; [reflexivity|].
  intros y Hy. apply H. now right.
Qed.

Lemma filter_throwing_all_false {A : Type} (p : A -> option bool) l :
  (forall x, In x l -> p x = Some false) -> filter_throwing p l = Some [].
Proof.
  induction l as [|x l IH]; intros H; simpl; [reflexivity|].
  rewrite H by (now left). rewrite IH; [reflexivity|].
  intros y Hy. apply H. now right.
Qed.

Lemma strict_eq_str_true v d : strict_eq_str v d = true <-> v = Some (JStr d).
Proof.
  destruct v as [[| | |x| |]|]; simpl; try (split; discriminate).
  rewrite String.eqb_eq. split; [now intros ->|now intros [= ->]].
Qed.

(** The two date tests of the corrections filter. *)
Lemma correction_dates_true (c : json) (date ecd : option string) :
  (if match ecd with
      | Some d => negb (String.eqb d "") && negb (strict_eq_str (get c "error_corrected") d)
      | None => false
      end
   then Some false
   else if match date with
           | Some d => negb (String.eqb d "") && negb (strict_eq_str (get c "error_corrected") d)
                       && negb (strict_eq_str (get c "error_occurred") d)
           | None => false
           end
   then Some false
   else Some true) = Some true <->
  (forall d, ecd = Some d -> d <> "" -> get c "error_corrected" = Some (JStr d)) /\
  (forall d, date = Some d -> d <> "" ->
     get c "error_corrected" = Some (JStr d) \/ get c "error_occurred" = Some (JStr d)).
Proof.
  assert (Hdate :
    (if match date with
        | Some d => negb (String.eqb d "") && negb (strict_eq_str (get c "error_corrected") d)
                    && negb (strict_eq_str (get c "error_occurred") d)
        | None => false
        end
     then Some false else Some true) = Some true <->
    (forall d, date = Some d -> d <> "" ->
       get c "error_corrected" = Some (JStr d) \/ get c "error_occurred" = Some (JStr d))).
  { destruct date as [d|]; [|split; [intros _ d [=]|reflexivity]].
    destruct (String.eqb_spec d "") as [->|Hd]; simpl.
    - split; [intros _ d' [= <-] H; congruence|reflexivity].
    - destruct (strict_eq_str (get c "error_corrected") d) eqn:Ec;
        [apply strict_eq_str_true in Ec; simpl;
         split; [intros _ d' [= <-] _; now left|reflexivity]|].
      destruct (strict_eq_str (get c "error_occurred") d) eqn:Eo;
        [apply strict_eq_str_true in Eo; simpl;
         split; [intros _ d' [= <-] _; now right|reflexivity]|].
      simpl. split; [discriminate|].
      intros H. destruct (H d eq_refl Hd) as [H1|H1]; apply strict_eq_str_true in H1; congruence. }
  destruct ecd as [d|].
  - destruct (String.eqb_spec d "") as [->|Hd]; simpl.
    + rewrite Hdate. split; [intros H; split; [intros d' [= <-] H'; congruence|exact H]|tauto].
    + destruct (strict_eq_str (get c "error_corrected") d) eqn:Ec; simpl.
      * apply strict_eq_str_true in Ec. rewrite Hdate.
        split; [intros H; split; [intros d' [= <-] _; exact Ec|exact H]|tauto].
      * split; [discriminate|]. intros [H _]. specialize (H d eq_refl Hd).
        apply strict_eq_str_true in H. congruence.
  - rewrite Hdate. split; [intros H; split; [intros d' [=]|exact H]|tauto].
Qed.

Lemma correction_kept_true nts title date ecd c :
  correction_kept nts title date ecd c = Some true <->
  (forall t, title = Some t -> t <> 0%Z ->
     js_String_opt nts (get c "title") = Some (int_string t)) /\
  (forall d, ecd = Some d -> d <> "" -> get c "error_corrected" = Some (JStr d)) /\
  (forall d, date = Some d -> d <> "" ->
     get c "error_corrected" = Some (JStr d) \/ get c "error_occurred" = Some (JStr d)).
Proof.
  unfold correction_kept. rewrite <- correction_dates_true.
  destruct title as [t|].
  - destruct (Z.eqb_spec t 0) as [->|Ht]; simpl.
    + split; [intros H; split; [intros t' [= <-]; congruence|exact H]|tauto].
    + destruct (js_String_opt nts (get c "title")) as [s|] eqn:Es.
      * destruct (String.eqb_spec s (int_string t)) as [->|Hne]; simpl.
        -- split; [intros H; split; [intros t' [= <-] _; reflexivity|exact H]|tauto].
        -- split; [discriminate|]. intros [H _]. specialize (H t eq_refl Ht). congruence.
      * split; [discriminate|]. intros [H _]. specialize (H t eq_refl Ht). discriminate.
  - split; [intros H; split; [intros t' [=]|exact H]|tauto].
Qed.

(** [ecfr_get_corrections] reports the number of corrections in the payload
    and the number returned, which is never larger; the returned corrections
    are exactly those of the payload whose [title] converts to the requested
    title, whose [error_corrected] is the requested [error_corrected_date],
    and whose [error_corrected] or [error_occurred] is the requested [date],
    each test applying only when its argument is given (a title other than
    0, a date other than the empty string). *)
Theorem get_corrections_filter nts title date ecd data res :
  get_corrections nts title date ecd data = Some res ->
  total res = length (corrections_of data) /\
  filtered_count res = length (kept res) /\
  filtered_count res <= total res /\
  forall c, In c (kept res) <->
    In c (corrections_of data) /\
    (forall t, title = Some t -> t <> 0%Z ->
       js_String_opt nts (get c "title") = Some (int_string t)) /\
    (forall d, ecd = Some d -> d <> "" -> get c "error_corrected" = Some (JStr d)) /\
    (forall d, date = Some d -> d <> "" ->
       get c "error_corrected" = Some (JStr d) \/ get c "error_occurred" = Some (JStr d)).
Proof.
  unfold get_corrections.
  destruct (filter_throwing _ _) as [r|] eqn:F; [|discriminate].
  intros H; injection H as <-. simpl.
  destruct (filter_throwing_spec _ _ _ F) as [Hin Hlen].
  split; [reflexivity|split; [reflexivity|split; [exact Hlen|]]].
  intros c. rewrite Hin, correction_kept_true. reflexivity.
Qed.

Lemma get_corrections_filter_witness :
  exists res,
    get_corrections print_number (Some 21%Z) (Some "2024-01-05") None sample_corrections
    = Some res /\
    (total res = length (corrections_of sample_corrections) /\
     filtered_count res = length (kept res) /\
     filtered_count res <= total res /\
     forall c, In c (kept res) <->
       In c (corrections_of sample_corrections) /\
       (forall t, Some 21%Z = Some t -> t <> 0%Z ->
          js_String_opt print_number (get c "title") = Some (int_string t)) /\
       (forall d, @None string = Some d -> d <> "" -> get c "error_corrected" = Some (JStr d)) /\
       (forall d, Some "2024-01-05" = Some d -> d <> "" ->
          get c "error_corrected" = Some (JStr d) \/ get c "error_occurred" = Some (JStr d))).
Proof.
  eexists. split; [reflexivity|].
  eapply (get_corrections_filter print_number (Some 21%Z) (Some "2024-01-05") None
            sample_corrections). reflexivity.
Defined.

(** Without a title and with no date filter (absent or the empty string),
    every correction of the payload is returned. *)
Theorem get_corrections_unfiltered nts date ecd data :
  arg_truthy date = false -> arg_truthy ecd = false ->
  get_corrections nts None date ecd data =
  Some {| total := length (corrections_of data);
          filtered_count := length (corrections_of data);
          kept := corrections_of data |}.
Proof.
  intros Hd He. unfold get_corrections.
  rewrite filter_throwing_all_true; [reflexivity|].
  intros c _. unfold correction_kept.
  destruct date as [[|a d]|]; [|discriminate|];
    (destruct ecd as [[|b e]|]; [|discriminate|]); reflexivity.
Qed.

Lemma get_corrections_unfiltered_witness :
  arg_truthy (Some "") = false /\ arg_truthy None = false /\
  get_corrections print_number None (Some "") None sample_corrections =
  Some {| total := length (corrections_of sample_corrections);
          filtered_count := length (corrections_of sample_corrections);
          kept := corrections_of sample_corrections |}.
Proof.
  split; [reflexivity|]. split; [reflexivity|].
  apply (get_corrections_unfiltered print_number (Some "") None); reflexivity.
Defined.

(** A payload without an [ecfr_corrections] array gives an empty answer
    (total 0), never an error, whatever the filters. *)
Theorem get_corrections_no_array nts title date ecd data :
  (forall l, get data "ecfr_corrections" <> Some (JArr l)) ->
  get_corrections nts title date ecd data =
  Some {| total := 0; filtered_count := 0; kept := [] |}.
Proof.
  intros H. unfold get_corrections, corrections_of.
  destruct (get data "ecfr_corrections") as [[| | | |l|]|]; try reflexivity.
  exfalso. exact (H l eq_refl).
Qed.

Lemma get_corrections_no_array_witness :
  (forall l, get (JObj [("ecfr_corrections", JNull)]) "ecfr_corrections" <> Some (JArr l)) /\
  get_corrections print_number (Some 21%Z) (Some "2024-01-05") None
    (JObj [("ecfr_corrections", JNull)]) =
  Some {| total := 0; filtered_count := 0; kept := [] |}.
Proof.
  assert (H : forall l, get (JObj [("ecfr_corrections", JNull)]) "ecfr_corrections"
                        <> Some (JArr l)) by (simpl; discriminate).
  split; [exact H|]. apply (get_corrections_no_array print_number); exact H.
Defined.

(** ** Resolving the [structure_index] of a section *)

Lemma all_three_true (a b c : option bool) :
  match a, b, c with
  | Some a, Some b, Some c => Some (a && b && c)
  | _, _, _ => None
  end = Some true ->
  a = Some true /\ b = Some true /\ c = Some true.
Proof. destruct a as [[]|], b as [[]|], c as [[]|]; simpl; intros H; try discriminate; auto. Qed.

(** One [v && String(v) === x] test of the candidate filter. *)
Lemma string_test_true nts v x :
  (if truthy v then option_map (fun s => String.eqb s x) (js_String_opt nts v)
   else Some false) = Some true ->
  js_String_opt nts v = Some x.
Proof.
  destruct (truthy v); [|discriminate].
  destruct (js_String_opt nts v) as [s|]; simpl; [|discriminate].
  intros [= E]. apply String.eqb_eq in E. now subst.
Qed.

Lemma entry_matches_true nts title sec part e :
  entry_matches nts title sec part e = Some true ->
  js_String_opt nts (oget (get e "hierarchy") "section") = Some sec /\
  js_String_opt nts (oget (get e "hierarchy") "title") = Some (int_string title) /\
  (forall p, part = Some p -> p <> "" ->
     js_String_opt nts (oget (get e "hierarchy") "part") = Some p).
Proof.
  unfold entry_matches. intros H.
  apply all_three_true in H as (Hs & Hp & Ht).
  split; [now apply string_test_true in Hs|].
  split; [now apply string_test_true in Ht|].
  intros p -> Hne. destruct (String.eqb_spec p "") as [|_]; [contradiction|].
  now apply string_test_true in Hp.
Qed.

Lemma resolve_queries_found nts search title s part qs matched target mr v :
  resolve_queries nts search title s part qs matched target = Some (mr, Some v) ->
  truthy (Some v) = true ->
  (mr = matched /\ target = Some v) \/
  exists m q d, mr = Some m /\ In q qs /\ search q = Some d /\
    In m (search_candidates d) /\ entry_matches nts title s part m = Some true /\
    get m "structure_index" = Some v.
Proof.
  revert matched target. induction qs as [|q qs IH]; intros matched target; simpl.
  - intros [= <- ->] _. now left.
  - destruct (search q) as [d|] eqn:Eq; [|discriminate].
    destruct (filter_throwing _ _) as [[|first rest]|] eqn:F; [| |discriminate].
    + intros H Hv. destruct (IH _ _ H Hv) as [Hl|(m & q' & d' & H1 & H2 & H3 & H4)];
        [now left|].
      right. exists m, q', d'. split; [exact H1|]. split; [now right|]. exact (conj H3 H4).
    + destruct (filter_throwing_spec _ _ _ F) as [Hin _].
      destruct (proj1 (Hin first) (or_introl eq_refl)) as [Hc Hm].
      destruct (truthy (get first "structure_index")) eqn:Et.
      * intros [= <- Hv'] _. right. exists first, q, d.
        split; [reflexivity|]. split; [now left|]. repeat split; assumption.
      * intros H Hv. destruct (IH _ _ H Hv) as [[_ Ht]|(m & q' & d' & H1 & H2 & H3 & H4)].
        -- rewrite Ht in Et. simpl in Et. congruence.
        -- right. exists m, q', d'. split; [exact H1|]. split; [now right|].
           exact (conj H3 H4).
Qed.

(** An index found by the search comes from a search result: the
    [structure_index] (truthy) of an entry returned for one of the queries,
    whose hierarchy has the requested section and title, and the requested
    part when one is given; that entry is the [matchedResult]. *)
Theorem resolve_found_sound nts search title sec part si v mr :
  resolve_structure_index nts search title sec part si = Resolved (FoundIndex v) mr ->
  exists s m q d,
    sec = Some s /\ s <> "" /\ mr = Some m /\
    In q (section_queries title s part) /\ search q = Some d /\
    In m (search_candidates d) /\
    get m "structure_index" = Some v /\ truthy (Some v) = true /\
    js_String_opt nts (oget (get m "hierarchy") "section") = Some s /\
    js_String_opt nts (oget (get m "hierarchy") "title") = Some (int_string title) /\
    (forall p, part = Some p -> p <> "" ->
       js_String_opt nts (oget (get m "hierarchy") "part") = Some p).
Proof.
  unfold resolve_structure_index. cbv zeta.
  intros H.
  assert (H' : match sec with
               | Some s =>
                   if negb (String.eqb s "") then
                     match resolve_queries nts search title s part
                             (section_queries title s part) None None with
                     | None => ResolveThrows
                     | Some (matched, Some v) =>
                         if truthy (Some v) then Resolved (FoundIndex v) matched
                         else ResolveError "Unable to resolve structure_index for requested section."
                     | Some (_, None) =>
                         ResolveError "Unable to resolve structure_index for requested section."
                     end
                   else ResolveError "Provide either structure_index or a section number to locate content."
               | None => ResolveError "Provide either structure_index or a section number to locate content."
               end = Resolved (FoundIndex v) mr).
  { destruct si as [z|]; [destruct (negb (z =? 0)%Z); [discriminate|]|]; exact H. }
  clear H. destruct sec as [s|]; [|discriminate].
  destruct (String.eqb s "") eqn:Hs; cbn [negb] in H'; [discriminate|].
  apply String.eqb_neq in Hs.
  destruct (resolve_queries _ _ _ _ _ _ _ _) as [[matched [t|]]|] eqn:R;
    [|discriminate|discriminate].
  destruct (truthy (Some t)) eqn:Tt; [|discriminate].
  injection H' as <- <-.
  destruct (resolve_queries_found _ _ _ _ _ _ _ _ _ _ R Tt)
    as [[_ Hn]|(m & q & d & H1 & H2 & H3 & H4 & H5 & H6)]; [discriminate|].
  destruct (entry_matches_true _ _ _ _ _ H5) as (Hsec & Htitle & Hpart).
  exists s, m, q, d. repeat split; assumption.
Qed.

Lemma resolve_found_sound_witness :
  exists v mr,
    resolve_structure_index print_number sample_search 21 (Some "1306.04") (Some "1306") None
    = Resolved (FoundIndex v) mr /\
    exists s m q d,
      Some "1306.04" = Some s /\ s <> "" /\ mr = Some m /\
      In q (section_queries 21 s (Some "1306")) /\ sample_search q = Some d /\
      In m (search_candidates d) /\
      get m "structure_index" = Some v /\ truthy (Some v) = true /\
      js_String_opt print_number (oget (get m "hierarchy") "section") = Some s /\
      js_String_opt print_number (oget (get m "hierarchy") "title") = Some (int_string 21) /\
      (forall p, Some "1306" = Some p -> p <> "" ->
         js_String_opt print_number (oget (get m "hierarchy") "part") = Some p).
Proof.
  do 2 eexists. split; [reflexivity|].
  eapply (resolve_found_sound print_number sample_search 21 (Some "1306.04") (Some "1306") None).
  reflexivity.
Defined.

Lemma resolve_queries_none nts search title s part qs matched target :
  (forall q, In q qs -> exists d, search q = Some d /\
     forall e, In e (search_candidates d) -> entry_matches nts title s part e = Some false) ->
  resolve_queries nts search title s part qs matched target = Some (matched, target).
Proof.
  induction qs as [|q qs IH]; intros H; simpl; [reflexivity|].
  destruct (H q (or_introl eq_refl)) as (d & Hd & He). rewrite Hd.
  rewrite filter_throwing_all_false by exact He.
  apply IH. intros q' Hq'. apply H. now right.
Qed.

(** When no index is given (absent or 0) and, for every query tried, the
    search answers without any entry matching the section, title and part,
    the handler answers "Unable to resolve structure_index for requested
    section." *)
Theorem resolve_no_match nts search title s part si :
  si = None \/ si = Some 0%Z ->
  String.eqb s "" = false ->
  (forall q, In q (section_queries title s part) -> exists d, search q = Some d /\
     forall e, In e (search_candidates d) -> entry_matches nts title s part e = Some false) ->
  resolve_structure_index nts search title (Some s) part si =
  ResolveError "Unable to resolve structure_index for requested section.".
Proof.
  intros Hsi Hs Hq. unfold resolve_structure_index. cbv zeta.
  rewrite Hs, resolve_queries_none by exact Hq.
  destruct Hsi as [->| ->]; reflexivity.
Qed.

Lemma resolve_no_match_witness :
  (@None Z = None \/ @None Z = Some 0%Z) /\
  String.eqb "1306.05" "" = false /\
  (forall q, In q (section_queries 21 "1306.05" None) -> exists d, sample_search q = Some d /\
     forall e, In e (search_candidates d) ->
       entry_matches print_number 21 "1306.05" None e = Some false) /\
  resolve_structure_index print_number sample_search 21 (Some "1306.05") None None =
  ResolveError "Unable to resolve structure_index for requested section.".
Proof.
  assert (Hq : forall q, In q (section_queries 21 "1306.05" None) ->
            exists d, sample_search q = Some d /\
            forall e, In e (search_candidates d) ->
              entry_matches print_number 21 "1306.05" None e = Some false).
  { intros q _. eexists. split; [reflexivity|].
    intros e He. simpl in He. destruct He as [<-|[<-|[]]]; vm_compute; reflexivity. }
  split; [now left|]. split; [reflexivity|]. split; [exact Hq|].
  apply (resolve_no_match print_number sample_search 21 "1306.05" None None);
    [now left|reflexivity|exact Hq].
Defined.



(** ** Further properties of the differ *)

Lemma filter_typed (t t' : string) l :
  Forall (fun c => ctype c = t) l ->
  filter (fun c => String.eqb (ctype c) t') l = if String.eqb t t' then l else [].
Proof.
  induction l as [|c l IH]; intros H; simpl; [now destruct (String.eqb t t')|].
  apply Forall_cons_iff in H as [Hc Hl]. rewrite Hc, IH by exact Hl.
  now destruct (String.eqb t t').
Qed.

Lemma filter_added title part d sm em :
  filter (fun c => String.eqb (ctype c) "added") (diff_changes title part d sm em)
  = added_list title part d sm em.
Proof.
  rewrite diff_changes_split, !filter_app.
  rewrite (filter_typed _ _ _ (added_list_types title part d sm em)),
    (filter_typed _ _ _ (removed_list_types title part d sm em)),
    (filter_typed _ _ _ (modified_list_types title part d sm em)).
  simpl. now rewrite !app_nil_r.
Qed.

Lemma filter_removed title part d sm em :
  filter (fun c => String.eqb (ctype c) "removed") (diff_changes title part d sm em)
  = removed_list title part d sm em.
Proof.
  rewrite diff_changes_split, !filter_app.
  rewrite (filter_typed _ _ _ (added_list_types title part d sm em)),
    (filter_typed _ _ _ (removed_list_types title part d sm em)),
    (filter_typed _ _ _ (modified_list_types title part d sm em)).
  simpl. now rewrite app_nil_r.
Qed.

Lemma added_list_sections title part d sm em :
  map section (added_list title part d sm em) =
  map fst (filter (fun e => negb (map_has sm (fst e))) em).
Proof.
  unfold added_list. induction em as [|[k v] rest IH]; [reflexivity|].
  simpl. destruct (map_has sm k); simpl; [exact IH|now f_equal].
Qed.

Lemma removed_list_sections title part d sm em :
  map section (removed_list title part d sm em) =
  map fst (filter (fun e => negb (map_has em (fst e))) sm).
Proof.
  unfold removed_list. induction sm as [|[k v] rest IH]; [reflexivity|].
  simpl. destruct (map_has em k); simpl; [exact IH|now f_equal].
Qed.

(** Swapping the two dates swaps the added and the removed records: the
    sections added between [a] and [b] are, in the same order, the sections
    removed between [b] and [a], and conversely; the summary counts swap
    accordingly. *)
Theorem diff_swap_dates nts fetch title a b part s1 c1 s2 c2 :
  diffTitleStructures nts fetch title a b part None = Some (s1, c1) ->
  diffTitleStructures nts fetch title b a part None = Some (s2, c2) ->
  map section (filter (fun c => String.eqb (ctype c) "added") c1) =
    map section (filter (fun c => String.eqb (ctype c) "removed") c2) /\
  map section (filter (fun c => String.eqb (ctype c) "removed") c1) =
    map section (filter (fun c => String.eqb (ctype c) "added") c2) /\
  sections_added s1 = sections_removed s2 /\
  sections_removed s1 = sections_added s2.
Proof.
  intros H1 H2.
  apply diffTitleStructures_inv in H1 as (sd & ed & sm & em & Hs & He & Hsm & Hem & Hr1).
  apply diffTitleStructures_inv in H2 as (sd' & ed' & sm' & em' & Hs' & He' & Hsm' & Hem' & Hr2).
  rewrite He in Hs'; injection Hs' as <-. rewrite Hs in He'; injection He' as <-.
  rewrite Hem in Hsm'; injection Hsm' as <-. rewrite Hsm in Hem'; injection Hem' as <-.
  injection Hr1 as -> ->. injection Hr2 as -> ->. simpl.
  unfold count_type.
  rewrite !filter_added, !filter_removed.
  assert (E1 : map section (added_list title part b sm em) =
               map section (removed_list title part a em sm))
    by now rewrite added_list_sections, removed_list_sections.
  assert (E2 : map section (removed_list title part b sm em) =
               map section (added_list title part a em sm))
    by now rewrite added_list_sections, removed_list_sections.
  split; [exact E1|]. split; [exact E2|].
  split; [rewrite <- (length_map section), E1|rewrite <- (length_map section), E2];
    now rewrite length_map.
Qed.

Lemma diff_swap_dates_witness :
  exists s1 c1 s2 c2,
    diffTitleStructures print_number (serve scenario_start scenario_end) 21
      "2024-01-01" "2024-06-01" None None = Some (s1, c1) /\
    diffTitleStructures print_number (serve scenario_start scenario_end) 21
      "2024-06-01" "2024-01-01" None None = Some (s2, c2) /\
    (map section (filter (fun c => String.eqb (ctype c) "added") c1) =
       map section (filter (fun c => String.eqb (ctype c) "removed") c2) /\
     map section (filter (fun c => String.eqb (ctype c) "removed") c1) =
       map section (filter (fun c => String.eqb (ctype c) "added") c2) /\
     sections_added s1 = sections_removed s2 /\
     sections_removed s1 = sections_added s2).
Proof.
  do 4 eexists. split; [reflexivity|]. split; [reflexivity|].
  eapply (diff_swap_dates print_number (serve scenario_start scenario_end) 21
            "2024-01-01" "2024-06-01" None); reflexivity.
Defined.

Lemma added_list_content title part d sm em c :
  NoDup (map_keys em) -> In c (added_list title part d sm em) ->
  exists k n, c = added_record title part d k n /\ map_get em k = Some n /\
              map_has sm k = false.
Proof.
  unfold added_list. intros Hnd Hc. apply in_flat_map in Hc as ([k n] & Hin & Hc).
  destruct (map_has sm k) eqn:E; simpl in Hc; [destruct Hc|].
  destruct Hc as [<-|[]]. exists k, n.
  split; [reflexivity|]. split; [now apply NoDup_map_get|exact E].
Qed.

Lemma removed_list_content title part d sm em c :
  NoDup (map_keys sm) -> In c (removed_list title part d sm em) ->
  exists k n, c = removed_record title part d k n /\ map_get sm k = Some n /\
              map_has em k = false.
Proof.
  unfold removed_list. intros Hnd Hc. apply in_flat_map in Hc as ([k n] & Hin & Hc).
  destruct (map_has em k) eqn:E; simpl in Hc; [destruct Hc|].
  destruct Hc as [<-|[]]. exists k, n.
  split; [reflexivity|]. split; [now apply NoDup_map_get|exact E].
Qed.

Lemma modified_list_content title part d sm em c :
  NoDup (map_keys em) -> In c (modified_list title part d sm em) ->
  exists k p n, c = modified_record title part d k n p /\ map_get sm k = Some p /\
                map_get em k = Some n /\ differs n p = true.
Proof.
  unfold modified_list. intros Hnd Hc. apply in_flat_map in Hc as ([k n] & Hin & Hc).
  destruct (map_get sm k) as [p|] eqn:Ep; [|destruct Hc].
  destruct (truthy (Some p) && differs n p) eqn:E; [|destruct Hc].
  destruct Hc as [<-|[]]. apply andb_true_iff in E as [_ E]. exists k, p, n.
  split; [reflexivity|]. split; [exact Ep|]. split; [now apply NoDup_map_get|exact E].
Qed.

(** Every record of the differ cites its section in the title
    ([`${title} CFR ${id}`]), is dated with the end date, and carries the
    caller's part when one is given. *)
Theorem diff_record_fields nts fetch title start_date end_date part ct summ chs :
  diffTitleStructures nts fetch title start_date end_date part ct = Some (summ, chs) ->
  Forall (fun c => citation c = citation_of title (section c) /\
                   change_date c = end_date /\
                   (forall p, part = Some p -> cpart c = JStr p)) chs.
Proof.
  intros H.
  apply diffTitleStructures_inv in H as (sd & ed & sm & em & _ & _ & _ & _ & Hr).
  injection Hr as _ ->. apply Forall_forall. intros c Hc.
  apply filter_changes_sub in Hc. rewrite diff_changes_split in Hc.
  apply in_app_or in Hc as [Hc|Hc]; [|apply in_app_or in Hc as [Hc|Hc]].
  - unfold added_list in Hc. apply in_flat_map in Hc as ([k n] & _ & Hc).
    destruct (negb _); [destruct Hc as [<-|[]]|destruct Hc].
    split; [reflexivity|]. split; [reflexivity|]. now intros p ->.
  - unfold removed_list in Hc. apply in_flat_map in Hc as ([k n] & _ & Hc).
    destruct (negb _); [destruct Hc as [<-|[]]|destruct Hc].
    split; [reflexivity|]. split; [reflexivity|]. now intros p ->.
  - unfold modified_list in Hc. apply in_flat_map in Hc as ([k n] & _ & Hc).
    destruct (map_get sm k); [|destruct Hc].
    destruct (_ && _); [destruct Hc as [<-|[]]|destruct Hc].
    split; [reflexivity|]. split; [reflexivity|]. now intros p ->.
Qed.

Lemma diff_record_fields_witness :
  exists summ chs,
    diffTitleStructures print_number (serve scenario_start scenario_end) 21
      "2024-01-01" "2024-06-01" (Some "1306") None = Some (summ, chs) /\
    Forall (fun c => citation c = citation_of 21 (section c) /\
                     change_date c = "2024-06-01" /\
                     (forall p, Some "1306" = Some p -> cpart c = JStr p)) chs.
Proof.
  do 2 eexists. split; [reflexivity|].
  eapply (diff_record_fields print_number (serve scenario_start scenario_end) 21
            "2024-01-01" "2024-06-01" (Some "1306") None). reflexivity.
Defined.

(** What each record holds: an [added] record's section is in the end map
    only and its heading is the end node's [label_description ?? label ??
    null]; a [removed] record's section is in the start map only and its
    heading comes from the start node; neither has metadata.  A [modified]
    record's section has a start node [p] and an end node [n] that differ,
    it has no heading, the fixed description, and the [received_on],
    [reserved] and [size] of [p] and of [n] as start and end metadata. *)
Theorem diff_record_contents nts fetch title start_date end_date part ct
    sd ed sm em summ chs :
  fetch start_date title part = Some sd ->
  fetch end_date title part = Some ed ->
  buildSectionMap nts sd = Some sm ->
  buildSectionMap nts ed = Some em ->
  diffTitleStructures nts fetch title start_date end_date part ct = Some (summ, chs) ->
  forall c, In c chs ->
  (ctype c = "added" ->
     exists n, map_get em (section c) = Some n /\ map_has sm (section c) = false /\
       heading c = Some (or_null (coalesce (get n "label_description") (get n "label"))) /\
       start_metadata c = None /\ end_metadata c = None) /\
  (ctype c = "removed" ->
     exists n, map_get sm (section c) = Some n /\ map_has em (section c) = false /\
       heading c = Some (or_null (coalesce (get n "label_description") (get n "label"))) /\
       start_metadata c = None /\ end_metadata c = None) /\
  (ctype c = "modified" ->
     exists p n, map_get sm (section c) = Some p /\ map_get em (section c) = Some n /\
       differs n p = true /\ heading c = None /\
       description c = Some "Section metadata changed between snapshots." /\
       start_metadata c = Some (metadata_of p) /\ end_metadata c = Some (metadata_of n)).
Proof.
  intros Hs He Hsm Hem H.
  apply diffTitleStructures_inv in H as (sd' & ed' & sm' & em' & Hs' & He' & Hsm' & Hem' & Hr).
  rewrite Hs in Hs'; injection Hs' as <-. rewrite He in He'; injection He' as <-.
  rewrite Hsm in Hsm'; injection Hsm' as <-. rewrite Hem in Hem'; injection Hem' as <-.
  injection Hr as _ ->.
  destruct (buildSectionMap_entries _ _ _ Hsm) as [Hnds _].
  destruct (buildSectionMap_entries _ _ _ Hem) as [Hnde _].
  intros c Hc. apply filter_changes_sub in Hc. rewrite diff_changes_split in Hc.
  apply in_app_or in Hc as [Hc|Hc]; [|apply in_app_or in Hc as [Hc|Hc]].
  - destruct (added_list_content _ _ _ _ _ _ Hnde Hc) as (k & n & -> & Hg & Hh).
    simpl. split; [|split; discriminate].
    intros _. exists n. repeat split; assumption.
  - destruct (removed_list_content _ _ _ _ _ _ Hnds Hc) as (k & n & -> & Hg & Hh).
    simpl. split; [discriminate|split; [|discriminate]].
    intros _. exists n. repeat split; assumption.
  - destruct (modified_list_content _ _ _ _ _ _ Hnde Hc) as (k & p & n & -> & Hp & Hn & Hd).
    simpl. split; [discriminate|split; [discriminate|]].
    intros _. exists p, n. repeat split; assumption.
Qed.

Lemma diff_record_contents_witness :
  exists sd ed sm em summ chs,
    serve scenario_start scenario_end "2024-01-01" 21 None = Some sd /\
    serve scenario_start scenario_end "2024-06-01" 21 None = Some ed /\
    buildSectionMap print_number sd = Some sm /\
    buildSectionMap print_number ed = Some em /\
    diffTitleStructures print_number (serve scenario_start scenario_end) 21
      "2024-01-01" "2024-06-01" None None = Some (summ, chs) /\
    forall c, In c chs ->
    (ctype c = "added" ->
       exists n, map_get em (section c) = Some n /\ map_has sm (section c) = false /\
         heading c = Some (or_null (coalesce (get n "label_description") (get n "label"))) /\
         start_metadata c = None /\ end_metadata c = None) /\
    (ctype c = "removed" ->
       exists n, map_get sm (section c) = Some n /\ map_has em (section c) = false /\
         heading c = Some (or_null (coalesce (get n "label_description") (get n "label"))) /\
         start_metadata c = None /\ end_metadata c = None) /\
    (ctype c = "modified" ->
       exists p n, map_get sm (section c) = Some p /\ map_get em (section c) = Some n /\
         differs n p = true /\ heading c = None /\
         description c = Some "Section metadata changed between snapshots." /\
         start_metadata c = Some (metadata_of p) /\ end_metadata c = Some (metadata_of n)).
Proof.
  do 6 eexists.
  split; [reflexivity|]. split; [reflexivity|]. split; [reflexivity|].
  split; [reflexivity|]. split; [reflexivity|].
  eapply (diff_record_contents print_number (serve scenario_start scenario_end) 21
            "2024-01-01" "2024-06-01" None None); reflexivity.
Defined.

(** ** Key order of the flattened map *)





(** ** Lexicographic and chronological order of ISO dates *)

Local Open Scope Z_scope.

(** [365 Y + floor(Y/4) - floor(Y/100) + floor(Y/400)]: the days of the
    years before March of year [Y + 1], up to a constant. *)
Lemma era_days Y :
  (Y / 400) * 146097 +
  ((Y - Y / 400 * 400) * 365 + (Y - Y / 400 * 400) / 4 - (Y - Y / 400 * 400) / 100)
  = 365 * Y + Y / 4 - Y / 100 + Y / 400.
Proof.
  pose proof (Z.div_mod Y 400 ltac:(lia)) as HY.
  pose proof (Z.mod_pos_bound Y 400 ltac:(lia)) as Hr.
  set (q := Y / 400) in *. set (r := Y mod 400) in *.
  assert (E4 : Y / 4 = r / 4 + q * 100).
  { rewrite HY, <- Z.div_add by lia. f_equal. lia. }
  assert (E100 : Y / 100 = r / 100 + q * 4).
  { rewrite HY, <- Z.div_add by lia. f_equal. lia. }
  rewrite E4, E100. replace (Y - q * 400) with r by lia. lia.
Qed.

Lemma days_from_civil_eq y m d :
  days_from_civil y m d =
  let Y := if m <=? 2 then y - 1 else y in
  365 * Y + Y / 4 - Y / 100 + Y / 400
  + (153 * (if 2 <? m then m - 3 else m + 9) + 2) / 5 + d - 1 - 719468.
Proof. unfold days_from_civil. cbv zeta. rewrite <- era_days. lia. Qed.

Lemma div_succ Y c :
  0 < c -> (Y + 1) / c = Y / c + (if (Y + 1) mod c =? 0 then 1 else 0).
Proof.
  intros Hc. pose proof (Z.div_mod Y c ltac:(lia)) as HY.
  pose proof (Z.mod_pos_bound Y c Hc) as Hr.
  destruct (Z.eq_dec (Y mod c) (c - 1)) as [E|E].
  - assert (Hq : (Y + 1) / c = Y / c + 1).
    { symmetry; apply Z.div_unique_pos with 0; lia. }
    assert (Hm : (Y + 1) mod c = 0).
    { symmetry; apply Z.mod_unique_pos with (Y / c + 1); lia. }
    rewrite Hq, Hm. reflexivity.
  - assert (Hq : (Y + 1) / c = Y / c).
    { symmetry; apply Z.div_unique_pos with (Y mod c + 1); lia. }
    assert (Hm : (Y + 1) mod c = Y mod c + 1).
    { symmetry; apply Z.mod_unique_pos with (Y / c); lia. }
    rewrite Hq, Hm. destruct (Z.eqb_spec (Y mod c + 1) 0); lia.
Qed.

Lemma year_days_succ Y :
  365 * (Y + 1) + (Y + 1) / 4 - (Y + 1) / 100 + (Y + 1) / 400
  = 365 * Y + Y / 4 - Y / 100 + Y / 400 + 365 + (if is_leap (Y + 1) then 1 else 0).
Proof.
  rewrite (div_succ Y 4), (div_succ Y 100), (div_succ Y 400) by lia.
  pose proof (Z.div_mod (Y + 1) 4 ltac:(lia)).
  pose proof (Z.div_mod (Y + 1) 100 ltac:(lia)).
  pose proof (Z.div_mod (Y + 1) 400 ltac:(lia)).
  pose proof (Z.mod_pos_bound (Y + 1) 4 ltac:(lia)).
  pose proof (Z.mod_pos_bound (Y + 1) 100 ltac:(lia)).
  pose proof (Z.mod_pos_bound (Y + 1) 400 ltac:(lia)).
  unfold is_leap.
  destruct (Z.eqb_spec ((Y + 1) mod 4) 0) as [E4|E4];
  destruct (Z.eqb_spec ((Y + 1) mod 100) 0) as [E100|E100];
  destruct (Z.eqb_spec ((Y + 1) mod 400) 0) as [E400|E400]; cbn [andb orb negb]; lia.
Qed.

Local Notation "'year_days' Y" := (365 * Y + Y / 4 - Y / 100 + Y / 400)
  (at level 10, Y at level 9).

Lemma year_days_step y :
  year_days y = year_days (y - 1) + 365 + (if is_leap y then 1 else 0).
Proof.
  pose proof (year_days_succ (y - 1)) as H. replace (y - 1 + 1) with y in H by lia.
  exact H.
Qed.

Lemma year_days_mono Y Y' : Y <= Y' -> year_days Y <= year_days Y'.
Proof.
  intros H. replace Y' with (Y + (Y' - Y)) by lia.
  assert (Hk : 0 <= Y' - Y) by lia. revert Hk. generalize (Y' - Y).
  apply natlike_ind; [rewrite Z.add_0_r; lia|]. intros k Hk IH.
  rewrite <- Z.add_1_r, Z.add_assoc, year_days_succ.
  destruct (is_leap _); lia.
Qed.

Ltac civil_consts :=
  repeat match goal with
  | |- context [?a <=? ?b] =>
      let c := eval vm_compute in (a <=? b) in
      match c with
      | true => change (a <=? b) with true | false => change (a <=? b) with false
      end
  | |- context [?a <? ?b] =>
      let c := eval vm_compute in (a <? b) in
      match c with
      | true => change (a <? b) with true | false => change (a <? b) with false
      end
  | H : context [?a =? ?b] |- _ =>
      let c := eval vm_compute in (a =? b) in
      match c with
      | true => change (a =? b) with true in H | false => change (a =? b) with false in H
      end
  | H : context [existsb ?f ?l] |- _ =>
      let c := eval vm_compute in (existsb f l) in
      match c with
      | true => change (existsb f l) with true in H
      | false => change (existsb f l) with false in H
      end
  end; cbv beta iota zeta in *;
  repeat match goal with
  | |- context [(153 * ?t + 2) / 5] =>
      let c := eval vm_compute in ((153 * t + 2) / 5) in
      change ((153 * t + 2) / 5) with c
  end.

Lemma days_from_civil_bounds y m d :
  1 <= m <= 12 -> 1 <= d <= days_in_month y m ->
  year_days (y - 1) + 306 - 719468 <= days_from_civil y m d <= year_days y + 305 - 719468.
Proof.
  intros Hm Hd. rewrite days_from_civil_eq. unfold days_in_month in Hd.
  pose proof (year_days_step y).
  assert (m = 1 \/ m = 2 \/ m = 3 \/ m = 4 \/ m = 5 \/ m = 6 \/ m = 7 \/ m = 8 \/
          m = 9 \/ m = 10 \/ m = 11 \/ m = 12) as Hc by lia.
  destruct (is_leap y);
  repeat destruct Hc as [->|Hc]; subst; civil_consts; lia.
Qed.

Lemma days_from_civil_same_year y m d m' d' :
  1 <= m <= 12 -> 1 <= d <= days_in_month y m ->
  1 <= m' <= 12 -> 1 <= d' <= days_in_month y m' ->
  m < m' \/ (m = m' /\ d < d') ->
  days_from_civil y m d < days_from_civil y m' d'.
Proof.
  intros Hm Hd Hm' Hd' Hlt. rewrite !days_from_civil_eq.
  unfold days_in_month in Hd, Hd'.
  pose proof (year_days_step y).
  assert (m = 1 \/ m = 2 \/ m = 3 \/ m = 4 \/ m = 5 \/ m = 6 \/ m = 7 \/ m = 8 \/
          m = 9 \/ m = 10 \/ m = 11 \/ m = 12) as Hc by lia.
  assert (m' = 1 \/ m' = 2 \/ m' = 3 \/ m' = 4 \/ m' = 5 \/ m' = 6 \/ m' = 7 \/ m' = 8 \/
          m' = 9 \/ m' = 10 \/ m' = 11 \/ m' = 12) as Hc' by lia.
  destruct (is_leap y);
  repeat destruct Hc as [->|Hc]; repeat destruct Hc' as [->|Hc']; subst; civil_consts; lia.
Qed.

(** [days_from_civil] is strictly increasing in the lexicographic order of
    valid dates. *)
Lemma days_from_civil_lt y m d y' m' d' :
  1 <= m <= 12 -> 1 <= d <= days_in_month y m ->
  1 <= m' <= 12 -> 1 <= d' <= days_in_month y' m' ->
  y < y' \/ (y = y' /\ (m < m' \/ (m = m' /\ d < d'))) ->
  days_from_civil y m d < days_from_civil y' m' d'.
Proof.
  intros Hm Hd Hm' Hd' [Hy|[<- Hlt]].
  - pose proof (days_from_civil_bounds y m d Hm Hd).
    pose proof (days_from_civil_bounds y' m' d' Hm' Hd').
    pose proof (year_days_mono y (y' - 1) ltac:(lia)). lia.
  - now apply days_from_civil_same_year.
Qed.

Lemma digit_code c n :
  digit c = Some n -> Z.of_N (Ascii.N_of_ascii c) = n + 48 /\ 0 <= n <= 9.
Proof.
  unfold digit. destruct (_ && _)%bool eqn:E; [|discriminate].
  intros H. injection H as <-. apply andb_prop in E as [E1 E2].
  apply Z.leb_le in E1. apply Z.leb_le in E2. lia.
Qed.

Lemma digit_eqb c c' n n' :
  digit c = Some n -> digit c' = Some n' -> Ascii.eqb c c' = (n =? n').
Proof.
  intros H H'. apply digit_code in H as [H _]. apply digit_code in H' as [H' _].
  destruct (Ascii.eqb_spec c c') as [->|Hne]; destruct (Z.eqb_spec n n'); try lia.
  symmetry. exfalso. apply Hne.
  rewrite <- (Ascii.ascii_N_embedding c), <- (Ascii.ascii_N_embedding c'). f_equal. lia.
Qed.

Lemma digit_ltb c c' n n' :
  digit c = Some n -> digit c' = Some n' ->
  (Ascii.N_of_ascii c <? Ascii.N_of_ascii c')%N = (n <? n').
Proof.
  intros H H'. apply digit_code in H as [H _]. apply digit_code in H' as [H' _].
  destruct (N.ltb_spec (Ascii.N_of_ascii c) (Ascii.N_of_ascii c'));
  destruct (Z.ltb_spec n n'); lia.
Qed.

Lemma lex_step x y r s K :
  0 <= r < K -> 0 <= s < K ->
  (if x =? y then r <? s else x <? y) = (x * K + r <? y * K + s).
Proof.
  intros Hr Hs. destruct (Z.eqb_spec x y) as [->|Hne].
  - destruct (Z.ltb_spec r s); destruct (Z.ltb_spec (y * K + r) (y * K + s)); lia.
  - destruct (Z.ltb_spec x y); destruct (Z.ltb_spec (x * K + r) (y * K + s)); nia.
Qed.

(** The shape of a string that [parse_iso_date] accepts. *)
Lemma parse_iso_date_inv s t :
  parse_iso_date s = Some t ->
  exists y1 y2 y3 y4 m1 m2 d1 d2 a b c e f g h i,
    s = String y1 (String y2 (String y3 (String y4 (String "-"%char
          (String m1 (String m2 (String "-"%char (String d1 (String d2 EmptyString))))))))) /\
    digit y1 = Some a /\ digit y2 = Some b /\ digit y3 = Some c /\ digit y4 = Some e /\
    digit m1 = Some f /\ digit m2 = Some g /\ digit d1 = Some h /\ digit d2 = Some i /\
    1 <= f * 10 + g <= 12 /\
    1 <= h * 10 + i <= days_in_month (a * 1000 + b * 100 + c * 10 + e) (f * 10 + g) /\
    t = days_from_civil (a * 1000 + b * 100 + c * 10 + e) (f * 10 + g) (h * 10 + i) * 86400000.
Proof.
  unfold parse_iso_date. intros H.
  destruct s as [|y1 [|y2 [|y3 [|y4 [|c5 [|m1 [|m2 [|c8 [|d1 [|d2 [|z tl]]]]]]]]]]];
    try (cbv beta iota in H; discriminate H).
  all: repeat (match goal with
    | H : context [match ?c with Ascii _ _ _ _ _ _ _ _ => _ end] |- _ =>
        is_var c; destruct c as [[] [] [] [] [] [] [] []]
    end; cbv beta iota in H; try discriminate H).
  destruct (digit y1) as [a|] eqn:Dy1; [|discriminate H]. destruct (digit y2) as [b|] eqn:Dy2; [|discriminate H].
  destruct (digit y3) as [c|] eqn:Dy3; [|discriminate H]. destruct (digit y4) as [e|] eqn:Dy4; [|discriminate H].
  destruct (digit m1) as [f|] eqn:Dm1; [|discriminate H]. destruct (digit m2) as [g|] eqn:Dm2; [|discriminate H].
  destruct (digit d1) as [h|] eqn:Dd1; [|discriminate H]. destruct (digit d2) as [i|] eqn:Dd2; [|discriminate H].
  destruct (_ && _)%bool eqn:E; [|discriminate H]. injection H as <-.
  repeat match goal with E : (_ && _)%bool = true |- _ => apply andb_prop in E as [? ?] end.
  repeat match goal with E : (_ <=? _) = true |- _ => apply Z.leb_le in E end.
  exists y1, y2, y3, y4, m1, m2, d1, d2, a, b, c, e, f, g, h, i.
  repeat split; try assumption; try reflexivity; lia.
Qed.

Lemma days_in_month_le y m : days_in_month y m <= 31.
Proof.
  unfold days_in_month. destruct (m =? 2); [destruct (is_leap y); lia|].
  destruct (existsb _ _); lia.
Qed.

Lemma days_from_civil_key y m d y' m' d' :
  1 <= m <= 12 -> 1 <= d <= days_in_month y m ->
  1 <= m' <= 12 -> 1 <= d' <= days_in_month y' m' ->
  (days_from_civil y m d * 86400000 <? days_from_civil y' m' d' * 86400000)
  = (y * 10000 + m * 100 + d <? y' * 10000 + m' * 100 + d').
Proof.
  intros Hm Hd Hm' Hd'.
  pose proof (days_in_month_le y m). pose proof (days_in_month_le y' m').
  assert (Hlt : forall y m d y' m' d',
    1 <= m <= 12 -> 1 <= d <= days_in_month y m ->
    1 <= m' <= 12 -> 1 <= d' <= days_in_month y' m' ->
    y * 10000 + m * 100 + d < y' * 10000 + m' * 100 + d' ->
    days_from_civil y m d < days_from_civil y' m' d').
  { clear. intros y m d y' m' d' Hm Hd Hm' Hd' H.
    pose proof (days_in_month_le y m). pose proof (days_in_month_le y' m').
    apply days_from_civil_lt; try assumption.
    destruct (Z.lt_trichotomy y y') as [Hy|[<-|Hy]]; [now left| |lia].
    right. split; [reflexivity|].
    destruct (Z.lt_trichotomy m m') as [Hy|[<-|Hy]]; [now left| |lia].
    right. lia. }
  destruct (Z.ltb_spec (y * 10000 + m * 100 + d) (y' * 10000 + m' * 100 + d')) as [K|K].
  - apply Z.ltb_lt. specialize (Hlt y m d y' m' d' Hm Hd Hm' Hd' K). lia.
  - apply Z.ltb_ge. apply Z.le_lteq in K as [K|K].
    + specialize (Hlt y' m' d' y m d Hm' Hd' Hm Hd K). lia.
    + assert (y = y' /\ m = m' /\ d = d') as [-> [-> ->]] by lia. lia.
Qed.

Lemma iso_date_toDate po s t :
  parse_iso_date s = Some t -> toDate po (Some s) = Some t.
Proof.
  intros H. pose proof H as H'.
  apply parse_iso_date_inv in H'
    as (y1 & y2 & y3 & y4 & m1 & m2 & d1 & d2 & a1 & a2 & a3 & a4 & a5 & a6 & a7 & a8 &
        -> & D1 & D2 & D3 & D4 & D5 & D6 & D7 & D8 & Hm & Hd & Ht).
  cbn [toDate]. unfold date_parse. rewrite H. unfold time_clip.
  apply digit_code in D1, D2, D3, D4.
  pose proof (days_from_civil_bounds _ _ _ Hm Hd) as B.
  pose proof (year_days_mono (-1) (a1 * 1000 + a2 * 100 + a3 * 10 + a4 - 1) ltac:(lia)).
  pose proof (year_days_mono (a1 * 1000 + a2 * 100 + a3 * 10 + a4) 9999 ltac:(lia)).
  replace (year_days (-1)) with (-366) in * by reflexivity.
  replace (year_days 9999) with 3652059 in * by reflexivity.
  replace (Z.abs t <=? max_time) with true; [reflexivity|].
  symmetry. apply Z.leb_le. unfold max_time. lia.
Qed.

(** For two date-only strings [YYYY-MM-DD] naming calendar dates, [toDate]
    gives their parsed time values (never clipped), and the string comparison
    of the end-date clamp agrees with the chronological order of those
    values. *)
Theorem iso_dates_order po a b ta tb :
  parse_iso_date a = Some ta -> parse_iso_date b = Some tb ->
  toDate po (Some a) = Some ta /\ toDate po (Some b) = Some tb /\
  js_string_lt a b = (ta <? tb).
Proof.
  intros Ha Hb. split; [now apply iso_date_toDate|]. split; [now apply iso_date_toDate|].
  apply parse_iso_date_inv in Ha
    as (y1 & y2 & y3 & y4 & m1 & m2 & d1 & d2 & a1 & a2 & a3 & a4 & a5 & a6 & a7 & a8 &
        -> & D1 & D2 & D3 & D4 & D5 & D6 & D7 & D8 & Hm & Hd & ->).
  apply parse_iso_date_inv in Hb
    as (z1 & z2 & z3 & z4 & n1 & n2 & e1 & e2 & b1 & b2 & b3 & b4 & b5 & b6 & b7 & b8 &
        -> & E1 & E2 & E3 & E4 & E5 & E6 & E7 & E8 & Hm' & Hd' & ->).
  rewrite days_from_civil_key by assumption.
  cbn [js_string_lt]. rewrite !Ascii.eqb_refl.
  rewrite (digit_eqb _ _ _ _ D1 E1), (digit_eqb _ _ _ _ D2 E2), (digit_eqb _ _ _ _ D3 E3),
    (digit_eqb _ _ _ _ D4 E4), (digit_eqb _ _ _ _ D5 E5), (digit_eqb _ _ _ _ D6 E6),
    (digit_eqb _ _ _ _ D7 E7), (digit_eqb _ _ _ _ D8 E8).
  rewrite (digit_ltb _ _ _ _ D1 E1), (digit_ltb _ _ _ _ D2 E2), (digit_ltb _ _ _ _ D3 E3),
    (digit_ltb _ _ _ _ D4 E4), (digit_ltb _ _ _ _ D5 E5), (digit_ltb _ _ _ _ D6 E6),
    (digit_ltb _ _ _ _ D7 E7), (digit_ltb _ _ _ _ D8 E8).
  apply digit_code in D1, D2, D3, D4, D5, D6, D7, D8, E1, E2, E3, E4, E5, E6, E7, E8.
  replace (if a8 =? b8 then false else a8 <? b8) with (a8 <? b8)
    by (destruct (Z.eqb_spec a8 b8) as [->|]; [apply Z.ltb_irrefl|reflexivity]).
  rewrite (lex_step a7 b7 a8 b8 10) by lia.
  rewrite (lex_step a6 b6 _ _ 100) by lia.
  rewrite (lex_step a5 b5 _ _ 1000) by lia.
  rewrite (lex_step a4 b4 _ _ 10000) by lia.
  rewrite (lex_step a3 b3 _ _ 100000) by lia.
  rewrite (lex_step a2 b2 _ _ 1000000) by lia.
  rewrite (lex_step a1 b1 _ _ 10000000) by lia.
  f_equal; lia.
Qed.

Lemma iso_dates_order_witness :
  exists ta tb,
    parse_iso_date "2024-02-29" = Some ta /\ parse_iso_date "2024-03-01" = Some tb /\
    toDate (fun _ => None) (Some "2024-02-29") = Some ta /\
    toDate (fun _ => None) (Some "2024-03-01") = Some tb /\
    js_string_lt "2024-02-29" "2024-03-01" = (ta <? tb).
Proof.
  do 2 eexists. split; [reflexivity|]. split; [reflexivity|].
  apply (iso_dates_order (fun _ => None)); reflexivity.
Defined.

Local Close Scope Z_scope.

(** ** The date-range search *)

Lemma toDate_value_falsy nts po ton v :
  truthy v = false -> toDate_value nts po ton v = Some None.
Proof. intros H. unfold toDate_value. now rewrite H. Qed.



Lemma search_entry_kept_true nts po ton title start_date end_date e :
  search_entry_kept nts po ton title start_date end_date e = Some true <->
  (forall t, title = Some t ->
     truthy (oget (get e "hierarchy") "title") = true /\
     js_String_opt nts (oget (get e "hierarchy") "title") = Some (int_string t)) /\
  (arg_truthy start_date = true \/ arg_truthy end_date = true ->
     rangesOverlap_values nts po ton start_date end_date
       (get e "starts_on") (get e "ends_on") = Some true).
Proof.
  unfold search_entry_kept.
  set (v := oget (get e "hierarchy") "title").
  set (r := rangesOverlap_values nts po ton start_date end_date
              (get e "starts_on") (get e "ends_on")).
  assert (Ht : (match title with
                | None => Some true
                | Some t => if truthy v
                            then option_map (fun s => String.eqb s (int_string t))
                                   (js_String_opt nts v)
                            else Some false
                end = Some true) <->
               (forall t, title = Some t ->
                  truthy v = true /\ js_String_opt nts v = Some (int_string t))).
  { destruct title as [t|].
    - destruct (truthy v) eqn:Hv.
      + destruct (js_String_opt nts v) as [s|]; simpl.
        * split.
          -- intros H t' Ht'. injection Ht' as <-. injection H as H.
             apply String.eqb_eq in H. subst. auto.
          -- intros H. destruct (H t eq_refl) as [_ Hs]. injection Hs as ->.
             now rewrite String.eqb_refl.
        * split; [discriminate|]. intros H. destruct (H t eq_refl) as [_ Hs]. discriminate.
      + split; [discriminate|]. intros H. destruct (H t eq_refl) as [Hf _]. discriminate.
    - split; [intros _ t Ht; discriminate|reflexivity]. }
  assert (Hd : (if negb (arg_truthy start_date) && negb (arg_truthy end_date)
                then Some true else r) = Some true <->
               (arg_truthy start_date = true \/ arg_truthy end_date = true -> r = Some true)).
  { destruct (arg_truthy start_date), (arg_truthy end_date); simpl;
      intuition congruence. }
  destruct (match title with
            | None => Some true
            | Some t => if truthy v
                        then option_map (fun s => String.eqb s (int_string t))
                               (js_String_opt nts v)
                        else Some false
            end) as [a|] eqn:Ea;
  destruct (if negb (arg_truthy start_date) && negb (arg_truthy end_date)
            then Some true else r) as [b|] eqn:Eb.
  - rewrite <- Ht, <- Hd. destruct a, b; simpl; intuition congruence.
  - rewrite <- Ht, <- Hd. intuition congruence.
  - rewrite <- Ht, <- Hd. intuition congruence.
  - rewrite <- Ht, <- Hd. intuition congruence.
Qed.

(** [ecfr_search_with_date_range] reports [filtered_count] as the number of
    results it returns, never more than the search gave; the results
    returned are exactly those of the search whose [hierarchy.title] is
    truthy and converts to the requested title (when a title is given) and,
    when a start or an end date is given, whose [starts_on]/[ends_on] window
    overlaps the requested one. *)
Theorem search_range_filter nts po ton title start_date end_date data res :
  search_with_date_range nts po ton title start_date end_date data = Some res ->
  range_filtered_count res = length (range_results res) /\
  range_filtered_count res <= length (search_results_of data) /\
  forall e, In e (range_results res) <->
    In e (search_results_of data) /\
    (forall t, title = Some t ->
       truthy (oget (get e "hierarchy") "title") = true /\
       js_String_opt nts (oget (get e "hierarchy") "title") = Some (int_string t)) /\
    (arg_truthy start_date = true \/ arg_truthy end_date = true ->
       rangesOverlap_values nts po ton start_date end_date
         (get e "starts_on") (get e "ends_on") = Some true).
Proof.
  unfold search_with_date_range.
  destruct (filter_throwing _ _) as [l|] eqn:E; [|discriminate].
  intros H. injection H as <-. simpl.
  destruct (filter_throwing_spec _ _ _ E) as [Hin Hlen].
  split; [reflexivity|]. split; [exact Hlen|].
  intros e. rewrite Hin, search_entry_kept_true. reflexivity.
Qed.

Lemma search_range_filter_witness :
  exists res,
    search_with_date_range print_number (fun _ => None) (fun _ => None) (Some 21%Z)
      (Some "2024-01-01") None sample_search_payload = Some res /\
    (range_filtered_count res = length (range_results res) /\
     range_filtered_count res <= length (search_results_of sample_search_payload) /\
     forall e, In e (range_results res) <->
       In e (search_results_of sample_search_payload) /\
       (forall t, Some 21%Z = Some t ->
          truthy (oget (get e "hierarchy") "title") = true /\
          js_String_opt print_number (oget (get e "hierarchy") "title") = Some (int_string t)) /\
       (arg_truthy (Some "2024-01-01") = true \/ arg_truthy None = true ->
          rangesOverlap_values print_number (fun _ => None) (fun _ => None)
            (Some "2024-01-01") None (get e "starts_on") (get e "ends_on") = Some true)).
Proof.
  eexists. split; [reflexivity|].
  eapply (search_range_filter print_number (fun _ => None) (fun _ => None)). reflexivity.
Defined.

(** Without a title and with no date filter (absent or the empty string),
    every search result is returned. *)
Theorem search_range_unfiltered nts po ton start_date end_date data :
  arg_truthy start_date = false -> arg_truthy end_date = false ->
  search_with_date_range nts po ton None start_date end_date data =
  Some {| range_meta := coalesce (get data "meta") (Some (JObj []));
          range_filtered_count := length (search_results_of data);
          range_results := search_results_of data |}.
Proof.
  intros Hs He. unfold search_with_date_range.
  rewrite filter_throwing_all_true; [reflexivity|].
  intros e _. unfold search_entry_kept. rewrite Hs, He. reflexivity.
Qed.

Lemma search_range_unfiltered_witness :
  arg_truthy (Some "") = false /\ arg_truthy None = false /\
  search_with_date_range print_number (fun _ => None) (fun _ => None) None (Some "") None
    sample_search_payload =
  Some {| range_meta := coalesce (get sample_search_payload "meta") (Some (JObj []));
          range_filtered_count := length (search_results_of sample_search_payload);
          range_results := search_results_of sample_search_payload |}.
Proof.
  split; [reflexivity|]. split; [reflexivity|].
  apply (search_range_unfiltered print_number (fun _ => None) (fun _ => None)); reflexivity.
Defined.

Lemma rangesOverlap_values_open nts po ton fs fe a b :
  truthy a = false -> truthy b = false ->
  rangesOverlap_values nts po ton fs fe a b = Some true.
Proof.
  intros Ha Hb. unfold rangesOverlap_values.
  rewrite (toDate_value_falsy _ _ _ _ Ha), (toDate_value_falsy _ _ _ _ Hb).
  case_date po fs; case_date po fe;
    repeat match goal with |- context [(?x <? ?y)%Z] => destruct (Z.ltb_spec x y) end;
    first [reflexivity | unfold max_time in *; lia].
Qed.

(** A search result without a validity window ([starts_on] and [ends_on]
    absent, null or empty) is never dropped by the date filter, whatever the
    requested dates: it is returned exactly when it passes the title test. *)
Theorem search_range_undated nts po ton title start_date end_date data res e :
  search_with_date_range nts po ton title start_date end_date data = Some res ->
  In e (search_results_of data) ->
  truthy (get e "starts_on") = false -> truthy (get e "ends_on") = false ->
  (In e (range_results res) <->
   forall t, title = Some t ->
     truthy (oget (get e "hierarchy") "title") = true /\
     js_String_opt nts (oget (get e "hierarchy") "title") = Some (int_string t)).
Proof.
  unfold search_with_date_range.
  destruct (filter_throwing _ _) as [l|] eqn:E; [|discriminate].
  intros H Hin Hs He. injection H as <-. simpl.
  destruct (filter_throwing_spec _ _ _ E) as [Hl _].
  rewrite Hl, search_entry_kept_true, (rangesOverlap_values_open _ _ _ _ _ _ _ Hs He).
  intuition.
Qed.

Lemma search_range_undated_witness :
  exists res,
    search_with_date_range print_number (fun _ => None) (fun _ => None) (Some 7%Z)
      (Some "2024-01-01") (Some "2024-02-01") sample_search_payload = Some res /\
    In (JObj [("hierarchy", JObj [("title", JStr "7"); ("section", JStr "1.1")])])
      (search_results_of sample_search_payload) /\
    truthy (get (JObj [("hierarchy", JObj [("title", JStr "7"); ("section", JStr "1.1")])])
              "starts_on") = false /\
    truthy (get (JObj [("hierarchy", JObj [("title", JStr "7"); ("section", JStr "1.1")])])
              "ends_on") = false /\
    (In (JObj [("hierarchy", JObj [("title", JStr "7"); ("section", JStr "1.1")])])
        (range_results res) <->
     forall t, Some 7%Z = Some t ->
       truthy (oget (get (JObj [("hierarchy", JObj [("title", JStr "7");
                                                   ("section", JStr "1.1")])])
                         "hierarchy") "title") = true /\
       js_String_opt print_number
         (oget (get (JObj [("hierarchy", JObj [("title", JStr "7");
                                              ("section", JStr "1.1")])])
                    "hierarchy") "title") = Some (int_string t)).
Proof.
  eexists. split; [reflexivity|].
  split; [simpl; tauto|]. split; [reflexivity|]. split; [reflexivity|].
  eapply (search_range_undated print_number (fun _ => None) (fun _ => None) (Some 7%Z)
            (Some "2024-01-01") (Some "2024-02-01") sample_search_payload).
  - reflexivity.
  - simpl; tauto.
  - reflexivity.
  - reflexivity.
Defined.

Lemma filter_throwing_some {A : Type} (p : A -> option bool) l :
  (forall x, In x l -> p x <> None) -> exists r, filter_throwing p l = Some r.
Proof.
  induction l as [|x l IH]; intros H; simpl; [eauto|].
  destruct (p x) as [b|] eqn:Ep; [|exfalso; apply (H x); [now left|exact Ep]].
  destruct IH as [r ->]; [intros y Hy; apply H; now right|]. eauto.
Qed.

Lemma js_to_string_scalar nts v :
  (forall l, v <> JArr l) -> (forall ps, v <> JObj ps) -> js_to_string nts v <> None.
Proof.
  intros Ha Ho. destruct v as [| [] | | | l | ps]; simpl; try discriminate; exfalso.
  - exact (Ha l eq_refl).
  - exact (Ho ps eq_refl).
Qed.

Lemma toDate_value_scalar nts po ton v :
  (forall l, v <> Some (JArr l)) -> (forall ps, v <> Some (JObj ps)) ->
  toDate_value nts po ton v <> None.
Proof.
  intros Ha Ho. unfold toDate_value.
  destruct (negb (truthy v)); [discriminate|].
  destruct v as [[| | | | l | ps]|]; try discriminate.
  - exfalso. exact (Ha l eq_refl).
  - exfalso. exact (Ho ps eq_refl).
Qed.

(** [ecfr_search_with_date_range] answers without an error whenever no
    search result has an object or an array as [hierarchy.title], as
    [starts_on] or as [ends_on]. *)
Theorem search_range_no_error nts po ton title start_date end_date data :
  (forall e, In e (search_results_of data) ->
     forall v, In v [oget (get e "hierarchy") "title"; get e "starts_on"; get e "ends_on"] ->
     (forall l, v <> Some (JArr l)) /\ (forall ps, v <> Some (JObj ps))) ->
  exists res, search_with_date_range nts po ton title start_date end_date data = Some res.
Proof.
  intros H. unfold search_with_date_range.
  destruct (filter_throwing_some (search_entry_kept nts po ton title start_date end_date)
              (search_results_of data)) as [r ->]; [|eauto].
  intros e He. destruct (H e He _ (or_introl eq_refl)) as [Ta To].
  destruct (H e He _ (or_intror (or_introl eq_refl))) as [Sa So].
  destruct (H e He _ (or_intror (or_intror (or_introl eq_refl)))) as [Ea Eo].
  unfold search_entry_kept.
  set (mt := match title with
             | None => Some true
             | Some t => if truthy (oget (get e "hierarchy") "title")
                         then option_map (fun s => String.eqb s (int_string t))
                                (js_String_opt nts (oget (get e "hierarchy") "title"))
                         else Some false
             end).
  set (md := if negb (arg_truthy start_date) && negb (arg_truthy end_date) then Some true
             else rangesOverlap_values nts po ton start_date end_date
                    (get e "starts_on") (get e "ends_on")).
  assert (Ht : mt <> None).
  { subst mt. destruct title as [t|]; [|discriminate].
    destruct (truthy _); [|discriminate].
    destruct (oget (get e "hierarchy") "title") as [j|]; [|discriminate].
    simpl. destruct (js_to_string nts j) eqn:Ej; [discriminate|].
    exfalso. refine (js_to_string_scalar nts j _ _ Ej).
    - intros l ->. exact (Ta l eq_refl).
    - intros ps ->. exact (To ps eq_refl). }
  assert (Hd : md <> None).
  { subst md. destruct (negb _ && negb _)%bool; [discriminate|].
    unfold rangesOverlap_values.
    destruct (toDate_value nts po ton (get e "starts_on")) eqn:Es;
      [|exfalso; exact (toDate_value_scalar nts po ton _ Sa So Es)].
    destruct (toDate_value nts po ton (get e "ends_on")) eqn:Ee;
      [|exfalso; exact (toDate_value_scalar nts po ton _ Ea Eo Ee)].
    discriminate. }
  destruct mt; [|congruence]. destruct md; [discriminate|congruence].
Qed.

Lemma search_range_no_error_witness :
  exists res,
    search_with_date_range print_number (fun _ => None) (fun _ => None) (Some 21%Z)
      (Some "2024-01-01") None sample_search_payload = Some res.
Proof.
  apply (search_range_no_error print_number (fun _ => None) (fun _ => None)).
  intros e He v Hv. simpl in He.
  repeat destruct He as [<-|He]; try contradiction;
    simpl in Hv; repeat destruct Hv as [<-|Hv]; try contradiction;
    split; discriminate.
Defined.

(** ** The title metadata of the composite handlers *)

Lemma find_throwing_spec {A : Type} (p : A -> option bool) l r :
  find_throwing p l = Some r ->
  match r with
  | Some x => exists l1 l2, l = l1 ++ x :: l2 /\ p x = Some true /\
                            Forall (fun y => p y = Some false) l1
  | None => Forall (fun y => p y = Some false) l
  end.
Proof.
  revert r. induction l as [|x l IH]; intros r; simpl.
  - intros H. injection H as <-. constructor.
  - destruct (p x) as [[]|] eqn:Ep; [| |discriminate].
    + intros H. injection H as <-. exists [], l. auto.
    + intros H. specialize (IH r H). destruct r as [y|].
      * destruct IH as (l1 & l2 & -> & Hy & Hl1).
        exists (x :: l1), l2. auto.
      * constructor; assumption.
Qed.

Lemma title_number_false nts title t :
  option_map (fun s => String.eqb s (int_string title)) (js_String_opt nts (get t "number"))
    = Some false ->
  exists s, js_String_opt nts (get t "number") = Some s /\ s <> int_string title.
Proof.
  destruct (js_String_opt nts (get t "number")) as [s|]; simpl; [|discriminate].
  intros H. injection H as H. exists s. split; [reflexivity|].
  now apply String.eqb_neq.
Qed.

(** The title metadata is the first entry of [titles] whose [number]
    converts to the requested title.  When no entry matches, or [titles] is
    not an array, the metadata is [null] or [false], and the latest issue
    date read from it is undefined (so the end date is not clamped). *)
Theorem fetchTitleMeta_first nts title data m :
  fetchTitleMeta nts title data = Some m ->
  (exists l1 l2, get data "titles" = Some (JArr (l1 ++ m :: l2)) /\
     js_String_opt nts (get m "number") = Some (int_string title) /\
     Forall (fun t => exists s, js_String_opt nts (get t "number") = Some s /\
                                s <> int_string title) l1) \/
  (m = JNull /\ get m "latest_issue_date" = None /\
   exists l, get data "titles" = Some (JArr l) /\
     Forall (fun t => exists s, js_String_opt nts (get t "number") = Some s /\
                                s <> int_string title) l) \/
  (m = JBool false /\ get m "latest_issue_date" = None /\
   forall l, get data "titles" <> Some (JArr l)).
Proof.
  unfold fetchTitleMeta.
  destruct (get data "titles") as [[| | | |l|]|] eqn:Et;
    try (intros H; injection H as <-; right; right;
         split; [reflexivity|]; split; [reflexivity|]; intros l' Hl; discriminate Hl).
  destruct (find_throwing _ l) as [r|] eqn:Ef; [|discriminate].
  apply find_throwing_spec in Ef. destruct r as [t|].
  - intros H. injection H as <-. left.
    destruct Ef as (l1 & l2 & -> & Ht & Hl1). exists l1, l2.
    split; [reflexivity|]. split.
    + destruct (js_String_opt nts (get t "number")) as [s|]; simpl in Ht; [|discriminate].
      injection Ht as Ht. apply String.eqb_eq in Ht. now subst.
    + eapply Forall_impl; [|exact Hl1]. intros y. apply title_number_false.
  - intros H. injection H as <-. right; left.
    split; [reflexivity|]. split; [reflexivity|]. exists l. split; [reflexivity|].
    eapply Forall_impl; [|exact Ef]. intros y. apply title_number_false.
Qed.

Lemma fetchTitleMeta_first_witness :
  exists m,
    fetchTitleMeta print_number 21%Z
      (JObj [("titles", JArr [JObj [("number", JNum 7%float)];
                              JObj [("number", JStr "21");
                                    ("latest_issue_date", JStr "2025-01-01")]])]) = Some m /\
    ((exists l1 l2,
        get (JObj [("titles", JArr [JObj [("number", JNum 7%float)];
                                    JObj [("number", JStr "21");
                                          ("latest_issue_date", JStr "2025-01-01")]])])
            "titles" = Some (JArr (l1 ++ m :: l2)) /\
        js_String_opt print_number (get m "number") = Some (int_string 21) /\
        Forall (fun t => exists s, js_String_opt print_number (get t "number") = Some s /\
                                   s <> int_string 21) l1) \/
     (m = JNull /\ get m "latest_issue_date" = None /\
      exists l, get (JObj [("titles", JArr [JObj [("number", JNum 7%float)];
                                            JObj [("number", JStr "21");
                                                  ("latest_issue_date", JStr "2025-01-01")]])])
                    "titles" = Some (JArr l) /\
        Forall (fun t => exists s, js_String_opt print_number (get t "number") = Some s /\
                                   s <> int_string 21) l) \/
     (m = JBool false /\ get m "latest_issue_date" = None /\
      forall l, get (JObj [("titles", JArr [JObj [("number", JNum 7%float)];
                                            JObj [("number", JStr "21");
                                                  ("latest_issue_date", JStr "2025-01-01")]])])
                    "titles" <> Some (JArr l))).
Proof.
  eexists. split; [reflexivity|].
  apply (fetchTitleMeta_first print_number 21%Z). reflexivity.
Defined.
